(** * Stat calculator: extraction of stat numbers and rating evaluation

    A shallow embedding of [src/components/index.tsx]: the number
    extraction of [performOCR], the evaluation of [calculateEvaluation]
    with its nested [getRating], the edit handler [handleStatChange] and the
    state the component keeps with [useState].

    JavaScript numbers are IEEE 754 binary64 values, embedded as Rocq's
    primitive floats; JavaScript strings are sequences of UTF-16 code
    units, embedded as lists of [N]. *)

From Stdlib Require Import ZArith NArith List Bool Ascii String Lia.
From Stdlib Require Import PrimFloat SpecFloat FloatOps.
From Equations Require Import Equations.
Import ListNotations.

Set Warnings "-inexact-float".
Local Open Scope Z_scope.

(** ** The JavaScript built-ins the component calls *)

Module JS.

(** *** Numbers *)

(** The Number value for a mathematical integer: round to nearest, ties to
    even, overflowing to an infinity. *)
Definition Z2F (z : Z) : float :=
  SF2Prim (binary_normalize prec emax z 0 false).

(** ToBoolean on a Number: NaN, +0 and -0 are falsy. *)
Definition truthy (x : float) : bool :=
  negb (PrimFloat.is_nan x || PrimFloat.is_zero x).

(** [x || y] on Numbers. *)
Definition or_else (x y : float) : float :=
  if truthy x then x else y.

(** floor (n/d + 1/2) for a positive denominator [d]. *)
Definition round_half_up (n d : Z) : Z := (2 * n + d) / (2 * d).

(** [Math.round]: NaN, infinities, zeros and integral values are
    returned as they are; otherwise the closest integer, a tie going
    toward +infinity, and a zero result keeping the sign of the
    argument. *)
Definition Math_round (x : float) : float :=
  match Prim2SF x with
  | S754_finite s m e =>
      if 0 <=? e then x
      else
        let d := 2 ^ (- e) in
        let n := if s then Z.neg m else Z.pos m in
        let r := round_half_up n d in
        if r =? 0 then (if s then (-0)%float else 0%float) else Z2F r
  | _ => x
  end.

(** *** Strings *)

Definition code_unit := N.
Definition jsstring := list code_unit.

(** A string literal of the source (code units below 256). *)
Definition str (s : string) : jsstring :=
  List.map N_of_ascii (list_ascii_of_string s).

Local Open Scope N_scope.

(** The class [\d] of a regular expression without the unicode flag. *)
Definition isDigit (c : code_unit) : bool := (48 <=? c) && (c <=? 57).

(** StrWhiteSpaceChar: WhiteSpace and LineTerminator. *)
Definition isWhiteSpace (c : code_unit) : bool :=
  (c =? 9) || (c =? 10) || (c =? 11) || (c =? 12) || (c =? 13) ||
  (c =? 32) || (c =? 160) || (c =? 5760) ||
  ((8192 <=? c) && (c <=? 8202)) ||
  (c =? 8232) || (c =? 8233) || (c =? 8239) || (c =? 8287) ||
  (c =? 12288) || (c =? 65279).

(** The value of a code unit as a digit of radix [R], if it is one. *)
Definition digit_value (R : N) (c : code_unit) : option N :=
  let v :=
    if (48 <=? c) && (c <=? 57) then Some (c - 48)
    else if (97 <=? c) && (c <=? 122) then Some (c - 97 + 10)
    else if (65 <=? c) && (c <=? 90) then Some (c - 65 + 10)
    else None in
  match v with
  | Some d => if d <? R then Some d else None
  | None => None
  end.

Fixpoint trim_start (s : jsstring) : jsstring :=
  match s with
  | c :: s' => if isWhiteSpace c then trim_start s' else s
  | [] => []
  end.

(** The longest prefix of radix-[R] digits, as digit values. *)
Fixpoint leading_digits (R : N) (s : jsstring) : list N :=
  match s with
  | c :: s' =>
      match digit_value R c with
      | Some d => d :: leading_digits R s'
      | None => []
      end
  | [] => []
  end.

(** The integer a list of digit values denotes in radix [R]. *)
Definition mathInt (R : N) (ds : list N) : N :=
  fold_left (fun acc d => acc * R + d) ds 0.

(** [parseInt(s)] with no radix argument: leading white space is
    skipped, one sign is read, a [0x] or [0X] prefix selects radix 16,
    and the longest prefix of digits is converted; with no digit the
    result is NaN. The integer read is converted exactly (the language
    lets an engine approximate a decimal integer beyond its twentieth
    significant digit). *)
Definition parseInt (s : jsstring) : float :=
  let s1 := trim_start s in
  let '(neg, s2) :=
    match s1 with
    | c :: r =>
        if c =? 45 then (true, r)
        else if c =? 43 then (false, r)
        else (false, s1)
    | [] => (false, s1)
    end in
  let '(R, s3) :=
    match s2 with
    | c :: x :: r =>
        if (c =? 48) && ((x =? 120) || (x =? 88)) then (16, r)
        else (10, s2)
    | _ => (10, s2)
    end in
  match leading_digits R s3 with
  | [] => PrimFloat.nan
  | ds =>
      let n := mathInt R ds in
      if n =? 0 then (if neg then (-0)%float else 0%float)
      else Z2F (if neg then - Z.of_N n else Z.of_N n)
  end.

(** *** The regular expression [/\d{3,4}/g] *)

(** Up to [n] leading digits: the greedy quantifier. *)
Fixpoint take_digits (n : nat) (s : jsstring) : jsstring :=
  match n, s with
  | S k, c :: s' => if isDigit c then c :: take_digits k s' else []
  | _, _ => []
  end.

(** A match of [\d{3,4}] that starts at the head of [s]. *)
Definition match_here (s : jsstring) : option jsstring :=
  let t := take_digits 4 s in
  if (3 <=? List.length t)%nat then Some t else None.

Lemma take_digits_length n s :
  (List.length (take_digits n s) <= List.length s)%nat.
Proof.
  revert s. induction n as [|k IH]; intros [|c s]; simpl; try lia.
  destruct (isDigit c); simpl; [specialize (IH s)|]; lia.
Qed.

Lemma match_here_length s t :
  match_here s = Some t ->
  (3 <= List.length t <= List.length s)%nat.
Proof.
  unfold match_here. pose proof (take_digits_length 4 s) as Hle.
  remember (take_digits 4 s) as t0 eqn:E0. clear E0.
  destruct (Nat.leb_spec 3 (List.length t0)) as [H|H]; [|discriminate].
  intros E. injection E as E. subst t. lia.
Qed.

(** A value together with the equation that names it, so that a
    [with] clause keeps the fact it matched on. *)
Definition inspect {A : Type} (a : A) : {b : A | a = b} :=
  exist _ a eq_refl.

(** All matches, left to right: after a match the search resumes at its
    end, otherwise one code unit further. *)
Equations? match_all (s : jsstring) : list jsstring
  by wf (List.length s) lt :=
  match_all [] := [];
  match_all (c :: s') with inspect (match_here (c :: s')) := {
    | exist _ (Some t) e := t :: match_all (skipn (List.length t) (c :: s'));
    | exist _ None _ := match_all s' }.
Proof.
  apply match_here_length in e.
  rewrite length_skipn. cbn [Datatypes.length] in *. lia.
Qed.

(** [s.match(/\d{3,4}/g)]: the array of all matches, or null when there
    is none. *)
Definition String_match (s : jsstring) : option (list jsstring) :=
  match match_all s with
  | [] => None
  | ms => Some ms
  end.

End JS.

Import JS.

(** ** The data of the component *)

(** One stat: [{ current: number; max: number }]. *)
Record Stat := mkStat { current : float; max : float }.

(** An object with the five stat keys, in the order the source writes
    them. [Stats], the [individual] scores and each row of the two
    coefficient tables have this shape. *)
Record PerStat (A : Type) := mkPerStat {
  speed : A; stamina : A; power : A; guts : A; wisdom : A }.
Arguments mkPerStat {A} _ _ _ _ _.
Arguments speed {A} _.
Arguments stamina {A} _.
Arguments power {A} _.
Arguments guts {A} _.
Arguments wisdom {A} _.

Definition Stats := PerStat Stat.

Record CalculatedResult := mkResult {
  individual : PerStat float;
  total : float;
  rating : string }.

(** ['short' | 'mile' | 'middle' | 'long'] *)
Inductive Distance := short | mile | middle | long.

(** ['nige' | 'senko' | 'sashi' | 'oikomi']: front-runner, pace-chaser,
    late-surger, closer. *)
Inductive Strategy := nige | senko | sashi | oikomi.

(** [keyof Stats] and ['current' | 'max']. *)
Inductive StatKey := Kspeed | Kstamina | Kpower | Kguts | Kwisdom.
Inductive Field := Fcurrent | Fmax.

Definition get {A : Type} (k : StatKey) (p : PerStat A) : A :=
  match k with
  | Kspeed => speed p
  | Kstamina => stamina p
  | Kpower => power p
  | Kguts => guts p
  | Kwisdom => wisdom p
  end.

(** [{ ...p, [k]: v }] *)
Definition set {A : Type} (k : StatKey) (v : A) (p : PerStat A) : PerStat A :=
  match k with
  | Kspeed => mkPerStat v (stamina p) (power p) (guts p) (wisdom p)
  | Kstamina => mkPerStat (speed p) v (power p) (guts p) (wisdom p)
  | Kpower => mkPerStat (speed p) (stamina p) v (guts p) (wisdom p)
  | Kguts => mkPerStat (speed p) (stamina p) (power p) v (wisdom p)
  | Kwisdom => mkPerStat (speed p) (stamina p) (power p) (guts p) v
  end.

Definition get_field (f : Field) (s : Stat) : float :=
  match f with Fcurrent => current s | Fmax => max s end.

(** [{ ...s, [f]: v }] *)
Definition set_field (f : Field) (v : float) (s : Stat) : Stat :=
  match f with
  | Fcurrent => mkStat v (max s)
  | Fmax => mkStat (current s) v
  end.

(** ** [calculateEvaluation] *)

Section Evaluation.
Local Open Scope float_scope.

Definition distanceCoef (distance : Distance) : PerStat float :=
  match distance with
  | short => mkPerStat 1.0 0.5 1.0 0.5 0.5
  | mile => mkPerStat 1.0 0.7 1.0 0.7 0.7
  | middle => mkPerStat 1.0 1.0 1.0 1.0 1.0
  | long => mkPerStat 0.8 1.2 0.8 1.2 1.2
  end.

Definition strategyCoef (strategy : Strategy) : PerStat float :=
  match strategy with
  | nige => mkPerStat 1.2 1.1 1.0 1.0 0.9
  | senko => mkPerStat 1.1 1.0 1.1 1.0 1.0
  | sashi => mkPerStat 1.0 1.0 1.1 1.1 1.0
  | oikomi => mkPerStat 0.9 1.0 1.2 1.2 1.1
  end.

Definition getRating (total : float) : string :=
  if 6000 <=? total then "SS"%string
  else if 5500 <=? total then "S"%string
  else if 5000 <=? total then "A+"%string
  else if 4500 <=? total then "A"%string
  else if 4000 <=? total then "B"%string
  else "C"%string.

Definition calculateEvaluation
    (stats : Stats) (distance : Distance) (strategy : Strategy)
    : CalculatedResult :=
  let evaluation := {|
    speed := current (speed stats) * speed (distanceCoef distance)
             * speed (strategyCoef strategy);
    stamina := current (stamina stats) * stamina (distanceCoef distance)
               * stamina (strategyCoef strategy);
    power := current (power stats) * power (distanceCoef distance)
             * power (strategyCoef strategy);
    guts := current (guts stats) * guts (distanceCoef distance)
            * guts (strategyCoef strategy);
    wisdom := current (wisdom stats) * wisdom (distanceCoef distance)
              * wisdom (strategyCoef strategy) |} in
  let total := Math_round
    (speed evaluation + stamina evaluation + power evaluation
     + guts evaluation + wisdom evaluation) in
  {| individual := evaluation; total := total; rating := getRating total |}.

(** What the result card shows for the per-stat scores:
    [Object.entries(calculated.individual)] mapped to
    [Math.round(value)]. *)
Definition displayedScores (calculated : CalculatedResult) : list float :=
  List.map Math_round
    [speed (individual calculated); stamina (individual calculated);
     power (individual calculated); guts (individual calculated);
     wisdom (individual calculated)].

End Evaluation.

(** ** Number extraction in [performOCR] *)

(** The part of [performOCR] after the text is recognised. [nth i numbers []]
    is [numbers[i]]: the guard makes every index used a valid one. *)
Definition extractStats (text : jsstring) : option Stats :=
  match String_match text with
  | None => None
  | Some numbers =>
      if (List.length numbers <? 10)%nat then None
      else
        let num i := parseInt (nth i numbers []) in
        Some {| speed := mkStat (num 0%nat) (num 1%nat);
                stamina := mkStat (num 2%nat) (num 3%nat);
                power := mkStat (num 4%nat) (num 5%nat);
                guts := mkStat (num 6%nat) (num 7%nat);
                wisdom := mkStat (num 8%nat) (num 9%nat) |}
  end.

(** [performOCR]: [ocr] is the text the two collaborators (image
    manipulation, then recognition) deliver, [None] when either throws,
    which the [catch] turns into [null]. *)
Definition performOCR (ocr : option jsstring) : option Stats :=
  match ocr with
  | Some text => extractStats text
  | None => None
  end.

(** ** The component's state and its handlers *)

(** The two alerts of [captureAndAnalyze]: "read failed, enter by hand"
    and "capturing the screen failed". *)
Inductive Alert := AlertReadFailed | AlertCaptureFailed.

(** The [useState] cells the handlers below touch, and the alerts shown so
    far. *)
Record AppState := mkState {
  stats : option Stats;
  calculated : option CalculatedResult;
  distance : Distance;
  strategy : Strategy;
  capturedImage : option jsstring;
  loading : bool;
  alerts : list Alert }.

Definition initialState : AppState :=
  {| stats := None; calculated := None; distance := middle;
     strategy := nige; capturedImage := None; loading := false;
     alerts := [] |}.

Definition setStats (v : Stats) (st : AppState) : AppState :=
  mkState (Some v) (calculated st) (distance st) (strategy st)
          (capturedImage st) (loading st) (alerts st).
Definition setCalculated (v : CalculatedResult) (st : AppState) : AppState :=
  mkState (stats st) (Some v) (distance st) (strategy st)
          (capturedImage st) (loading st) (alerts st).
Definition setDistance (v : Distance) (st : AppState) : AppState :=
  mkState (stats st) (calculated st) v (strategy st)
          (capturedImage st) (loading st) (alerts st).
Definition setStrategy (v : Strategy) (st : AppState) : AppState :=
  mkState (stats st) (calculated st) (distance st) v
          (capturedImage st) (loading st) (alerts st).
Definition setCapturedImage (v : jsstring) (st : AppState) : AppState :=
  mkState (stats st) (calculated st) (distance st) (strategy st)
          (Some v) (loading st) (alerts st).
Definition setLoading (v : bool) (st : AppState) : AppState :=
  mkState (stats st) (calculated st) (distance st) (strategy st)
          (capturedImage st) v (alerts st).
Definition alert (a : Alert) (st : AppState) : AppState :=
  mkState (stats st) (calculated st) (distance st) (strategy st)
          (capturedImage st) (loading st) (alerts st ++ [a]).

(** A handler is a closure of the render that created it: it reads
    [stats], [distance] and [strategy] as they were in that render, and
    writes through the setters. *)
Record Render := mkRender {
  r_stats : option Stats;
  r_distance : Distance;
  r_strategy : Strategy }.

Definition render (st : AppState) : Render :=
  {| r_stats := stats st; r_distance := distance st;
     r_strategy := strategy st |}.

(** What the collaborators of one capture deliver: [captureScreen] throws,
    or gives an image and [performOCR] runs on it. *)
Inductive CaptureOutcome :=
| CaptureThrows
| Captured (uri : jsstring) (ocr : option jsstring).

Definition zeroStats : Stats :=
  let z := mkStat 0%float 0%float in mkPerStat z z z z z.

Definition captureAndAnalyze
    (r : Render) (o : CaptureOutcome) (st : AppState) : AppState :=
  let st := setLoading true st in
  match o with
  | Captured uri ocr =>
      let st := setCapturedImage uri st in
      let st :=
        match performOCR ocr with
        | Some extractedStats =>
            let st := setStats extractedStats st in
            let result :=
              calculateEvaluation extractedStats (r_distance r) (r_strategy r) in
            setCalculated result st
        | None =>
            let st := alert AlertReadFailed st in
            setStats zeroStats st
        end in
      setLoading false st
  | CaptureThrows =>
      let st := alert AlertCaptureFailed st in
      setLoading false st
  end.

Definition handleStatChange
    (r : Render) (stat : StatKey) (field : Field) (value : jsstring)
    (st : AppState) : AppState :=
  match r_stats r with
  | None => st
  | Some stats0 =>
      let newStats :=
        set stat
          (set_field field (or_else (parseInt value) 0%float) (get stat stats0))
          stats0 in
      let st := setStats newStats st in
      setCalculated (calculateEvaluation newStats (r_distance r) (r_strategy r)) st
  end.

(** [onPress] of a distance button. *)
Definition pressDistance (r : Render) (key : Distance) (st : AppState)
    : AppState :=
  let st := setDistance key st in
  match r_stats r with
  | Some stats0 => setCalculated (calculateEvaluation stats0 key (r_strategy r)) st
  | None => st
  end.

(** [onPress] of a strategy button. *)
Definition pressStrategy (r : Render) (key : Strategy) (st : AppState)
    : AppState :=
  let st := setStrategy key st in
  match r_stats r with
  | Some stats0 => setCalculated (calculateEvaluation stats0 (r_distance r) key) st
  | None => st
  end.

(** What can happen to the component. The buttons and inputs carry the
    handlers of the latest render; the [CAPTURE_SCREEN] listener is
    registered by an effect with an empty dependency list, so it keeps
    the handler of the first render. A capture event stands for a whole
    run of [captureAndAnalyze] during which no other handler runs; the
    runs in which handlers come between its awaits are those of
    [asyncStep] below. *)
Inductive Event :=
| TestCapture (o : CaptureOutcome)
| OverlayCapture (o : CaptureOutcome)
| StatChange (stat : StatKey) (field : Field) (value : jsstring)
| DistancePress (key : Distance)
| StrategyPress (key : Strategy).

Definition step (st : AppState) (ev : Event) : AppState :=
  match ev with
  | TestCapture o => captureAndAnalyze (render st) o st
  | OverlayCapture o => captureAndAnalyze (render initialState) o st
  | StatChange stat field value =>
      handleStatChange (render st) stat field value st
  | DistancePress key => pressDistance (render st) key st
  | StrategyPress key => pressStrategy (render st) key st
  end.

Inductive reachable : AppState -> Prop :=
| reachable_init : reachable initialState
| reachable_step st ev : reachable st -> reachable (step st ev).

(** ** Notions the statements below are written with *)

(** [x >= y] on Numbers, as a proposition. *)
Definition ge (x y : float) : Prop := PrimFloat.leb y x = true.

(** The Number a decimal literal with one fractional digit denotes: the
    binary64 value nearest to [n/10]. *)
Definition tenths (n : Z) : float := (Z2F n / Z2F 10)%float.

(** The two coefficient tables, in tenths. *)
Definition distance_tenths (d : Distance) : PerStat Z :=
  match d with
  | short => mkPerStat 10 5 10 5 5
  | mile => mkPerStat 10 7 10 7 7
  | middle => mkPerStat 10 10 10 10 10
  | long => mkPerStat 8 12 8 12 12
  end.

Definition strategy_tenths (g : Strategy) : PerStat Z :=
  match g with
  | nige => mkPerStat 12 11 10 10 9
  | senko => mkPerStat 11 10 11 10 10
  | sashi => mkPerStat 10 10 11 11 10
  | oikomi => mkPerStat 9 10 12 12 11
  end.

(** The five scores of a result, in key order. *)
Definition scores (p : PerStat float) : list float :=
  [speed p; stamina p; power p; guts p; wisdom p].

(** Left-to-right sum of Numbers, as [a + b + c + d + e] evaluates. *)
Definition sumLeft (l : list float) : float :=
  match l with
  | [] => 0%float
  | x :: l' => fold_left PrimFloat.add l' x
  end.

(** The integer a string of decimal digits denotes. *)
Definition decimal (t : jsstring) : N :=
  fold_left (fun acc c => acc * 10 + (c - 48))%N t 0%N.

Definition tokenValue (t : jsstring) : float := Z2F (Z.of_N (decimal t)).

(** Ten numbers laid out as (current, max) pairs in key order. *)
Definition statsOfNumbers (l : list float) : Stats :=
  let num i := nth i l PrimFloat.nan in
  {| speed := mkStat (num 0%nat) (num 1%nat);
     stamina := mkStat (num 2%nat) (num 3%nat);
     power := mkStat (num 4%nat) (num 5%nat);
     guts := mkStat (num 6%nat) (num 7%nat);
     wisdom := mkStat (num 8%nat) (num 9%nat) |}.

(** The longest prefix of digits and what follows it. *)
Fixpoint spanDigits (s : jsstring) : jsstring * jsstring :=
  match s with
  | c :: s' =>
      if isDigit c
      then let '(r, rest) := spanDigits s' in (c :: r, rest)
      else ([], s)
  | [] => ([], [])
  end.

Lemma spanDigits_length s :
  (List.length (snd (spanDigits s)) <= List.length s)%nat.
Proof.
  induction s as [|c s IH]; simpl; [lia|].
  destruct (isDigit c); [|simpl; lia].
  destruct (spanDigits s) as [r rest]. simpl in *. lia.
Qed.

(** The maximal runs of digits of a string, left to right. *)
Equations? digitRuns (s : jsstring) : list jsstring
  by wf (List.length s) lt :=
  digitRuns [] := [];
  digitRuns (c :: s') :=
    if isDigit c
    then (c :: fst (spanDigits s')) :: digitRuns (snd (spanDigits s'))
    else digitRuns s'.
Proof.
  all: pose proof (spanDigits_length s'); cbn [Datatypes.length]; lia.
Qed.

(** A run cut into groups of four from its start, with a last group of
    three when exactly three digits remain; one or two left-over digits
    make no group. *)
Fixpoint chunks (r : jsstring) : list jsstring :=
  match r with
  | a :: b :: c :: d :: r' => [a; b; c; d] :: chunks r'
  | [a; b; c] => [[a; b; c]]
  | _ => []
  end.

(** A string is empty or starts with something that is not a digit. *)
Definition headNotDigit (s : jsstring) : Prop :=
  match s with
  | [] => True
  | c :: _ => isDigit c = false
  end.

(** A run of exactly three or four digits. *)
Definition length34 (r : jsstring) : bool :=
  (List.length r =? 3)%nat || (List.length r =? 4)%nat.

(** A Number that is a non-negative integer. *)
Definition nonnegInteger (x : float) : bool :=
  match Prim2SF x with
  | S754_zero _ => true
  | S754_finite false m e => (0 <=? e) || (Z.pos m mod 2 ^ (- e) =? 0)
  | _ => false
  end.

(** The stored result is the evaluation of the stored stats under the
    selected categories. *)
Definition isProjection (st : AppState) : Prop :=
  forall s, stats st = Some s ->
    calculated st = Some (calculateEvaluation s (distance st) (strategy st)).

Definition getStat (s : Stats) (k : StatKey) (f : Field) : float :=
  get_field f (get k s).

Definition allThousand : Stats :=
  let s := mkStat 1000%float 0%float in mkPerStat s s s s s.

Definition threes : Stats :=
  let s := mkStat 3%float 3%float in mkPerStat s s s s s.

(** A text with ten tokens, and one with two. *)
Definition tenNumbers : jsstring :=
  str "1000 1200 1000 1150 1000 1100 1000 1050 1000 1001".
Definition twoNumbers : jsstring := str "123 456".

(** The integers from 0 up to, and not including, [n]. *)
Definition rangeZ (n : Z) : list Z := List.map Z.of_nat (seq 0 (Z.to_nat n)).

(** Every value of a StatBlock is a non-negative integer. *)
Definition allNonnegIntegers (s : Stats) : Prop :=
  forall k f, nonnegInteger (getStat s k f) = true.

(** Every value of [s] is the Number of some integer. *)
Definition integerValues (s : Stats) : Prop :=
  forall k f, exists z : Z, getStat s k f = Z2F z.

(** A state after a capture on which recognition found nothing. *)
Definition afterFailedCapture : AppState :=
  step initialState (TestCapture (Captured [] (Some []))).

(** A state after a capture that read [tenNumbers]. *)
Definition afterCapture : AppState :=
  step initialState (TestCapture (Captured [] (Some tenNumbers))).

(** The events whose handler, created by the latest render, calls
    [calculateEvaluation] on the StatBlock it stores or finds. *)
Definition reevaluates (ev : Event) : bool :=
  match ev with
  | StatChange _ _ _ | DistancePress _ | StrategyPress _ => true
  | TestCapture (Captured _ ocr) =>
      match performOCR ocr with Some _ => true | None => false end
  | _ => false
  end.


(** ** More of the component: runs of events *)

Definition run (st : AppState) (evs : list Event) : AppState :=
  fold_left step evs st.

(** The alert an event makes [captureAndAnalyze] show, if any. *)
Definition alertOf (ev : Event) : list Alert :=
  match ev with
  | TestCapture o | OverlayCapture o =>
      match o with
      | CaptureThrows => [AlertCaptureFailed]
      | Captured _ ocr =>
          match performOCR ocr with
          | Some _ => []
          | None => [AlertReadFailed]
          end
      end
  | _ => []
  end.

(** The first two code units are ["0x"] or ["0X"]. *)
Definition hexPrefixed (s : jsstring) : bool :=
  match s with
  | c :: x :: _ => ((c =? 48) && ((x =? 120) || (x =? 88)))%N
  | _ => false
  end.

(** ** The overlay controls of the component *)

(** [Platform.OS === 'android'], or any other platform. *)
Inductive Platform := android | otherPlatform.

(** The alerts of [checkAndRequestPermissions] and [startOverlay]:
    "overlay permission needed" (with a button that opens the settings),
    "overlay started", "starting the overlay failed". *)
Inductive OverlayAlert := AlertNeedPermission | AlertStarted | AlertStartFailed.

(** The calls into [PermissionsAndroid] and the native [OverlayModule]. *)
Inductive NativeCall :=
| CallRequestStorage
| CallCheckOverlay
| CallRequestOverlay
| CallStartService
| CallStopService.

(** The [useState] cells [overlayEnabled] and [hasPermission], the alerts
    shown and the native calls made so far. *)
Record OverlayState := mkOverlay {
  overlayEnabled : bool;
  hasPermission : bool;
  shown : list OverlayAlert;
  native : list NativeCall }.

Definition initialOverlay : OverlayState :=
  {| overlayEnabled := false; hasPermission := false; shown := []; native := [] |}.

Definition setOverlayEnabled (v : bool) (st : OverlayState) : OverlayState :=
  mkOverlay v (hasPermission st) (shown st) (native st).
Definition setHasPermission (v : bool) (st : OverlayState) : OverlayState :=
  mkOverlay (overlayEnabled st) v (shown st) (native st).
Definition showAlert (a : OverlayAlert) (st : OverlayState) : OverlayState :=
  mkOverlay (overlayEnabled st) (hasPermission st) (shown st ++ [a]) (native st).
Definition call (c : NativeCall) (st : OverlayState) : OverlayState :=
  mkOverlay (overlayEnabled st) (hasPermission st) (shown st) (native st ++ [c]).

(** What the awaited calls of [checkAndRequestPermissions] deliver: the
    storage request rejects, the overlay check rejects, or the check
    resolves to a boolean. *)
Inductive CheckOutcome :=
| StorageThrows
| CheckThrows
| CheckResolves (granted : bool).

Definition checkAndRequestPermissions
    (os : Platform) (o : CheckOutcome) (st : OverlayState) : OverlayState :=
  match os with
  | android =>
      let st := call CallRequestStorage st in
      match o with
      | StorageThrows => st
      | CheckThrows => call CallCheckOverlay st
      | CheckResolves hasOverlayPermission =>
          let st := call CallCheckOverlay st in
          let st := setHasPermission hasOverlayPermission st in
          if negb hasOverlayPermission then showAlert AlertNeedPermission st
          else st
      end
  | otherPlatform => st
  end.

(** [startOverlay], a closure over [hasPermission]; [startThrows] says
    whether the awaited [startOverlayService] rejects. *)
Definition startOverlay
    (r_hasPermission : bool) (os : Platform) (o : CheckOutcome)
    (startThrows : bool) (st : OverlayState) : OverlayState :=
  if negb r_hasPermission then checkAndRequestPermissions os o st
  else
    let st := call CallStartService st in
    if startThrows then showAlert AlertStartFailed st
    else showAlert AlertStarted (setOverlayEnabled true st).

Definition stopOverlay (stopThrows : bool) (st : OverlayState) : OverlayState :=
  let st := call CallStopService st in
  if stopThrows then st else setOverlayEnabled false st.

(** The controls: the main button runs [stopOverlay] when the overlay is
    enabled and [startOverlay] otherwise; the permission button is
    rendered only without permission; the settings button belongs to the
    permission alert. *)
Inductive OverlayEvent :=
| PressMain (o : CheckOutcome) (startThrows stopThrows : bool)
| PressPermission (o : CheckOutcome)
| PressOpenSettings.

Definition overlayStep (os : Platform) (st : OverlayState) (ev : OverlayEvent)
    : OverlayState :=
  match ev with
  | PressMain o startThrows stopThrows =>
      if overlayEnabled st then stopOverlay stopThrows st
      else startOverlay (hasPermission st) os o startThrows st
  | PressPermission o =>
      if hasPermission st then st else checkAndRequestPermissions os o st
  | PressOpenSettings =>
      if existsb (fun a => match a with AlertNeedPermission => true | _ => false end)
                 (shown st)
      then call CallRequestOverlay st
      else st
  end.

(** The states the controls can reach: the effect of the first render
    runs [checkAndRequestPermissions] once, then events follow. *)
Inductive overlayReachable (os : Platform) : OverlayState -> Prop :=
| overlay_mounted o :
    overlayReachable os (checkAndRequestPermissions os o initialOverlay)
| overlay_step st ev :
    overlayReachable os st -> overlayReachable os (overlayStep os st ev).

(** ** [OverlayModule]: the native module *)

(** What the module reads from the device: [Build.VERSION.SDK_INT] and
    [Settings.canDrawOverlays]. *)
Record Device := mkDevice { SDK_INT : Z; canDrawOverlays : bool }.

(** [Build.VERSION_CODES.M] and [Build.VERSION_CODES.O]. *)
Definition VERSION_CODES_M : Z := 23.
Definition VERSION_CODES_O : Z := 26.

(** The value [checkOverlayPermission] resolves its promise with. *)
Definition checkOverlayPermission (dev : Device) : bool :=
  if VERSION_CODES_M <=? SDK_INT dev then canDrawOverlays dev else true.

(** [requestOverlayPermission]: whether it starts the settings activity. *)
Definition requestOverlayPermission (dev : Device) : bool :=
  if VERSION_CODES_M <=? SDK_INT dev
  then (if negb (canDrawOverlays dev) then true else false)
  else false.

Inductive ServiceCall := StartForegroundService | StartService | StopService.

Definition startOverlayService (dev : Device) : ServiceCall :=
  if VERSION_CODES_O <=? SDK_INT dev then StartForegroundService
  else StartService.

Definition stopOverlayService (dev : Device) : ServiceCall := StopService.

(** The first render on an Android device whose native check answers. *)
Definition mountedOn (dev : Device) : OverlayState :=
  checkAndRequestPermissions android
    (CheckResolves (checkOverlayPermission dev)) initialOverlay.

(** ** [OverlayService]: the floating button *)

(** Java [int]: 32 bits, wrapping. *)
Definition int32 (z : Z) : Prop := - 2 ^ 31 <= z < 2 ^ 31.
Definition wrap32 (z : Z) : Z := (z + 2 ^ 31) mod 2 ^ 32 - 2 ^ 31.

(** Java [float]: IEEE 754 binary32. *)
Definition float32 := spec_float.
Definition fsub (x y : float32) : float32 := SFsub 24 128 x y.

(** The narrowing cast [(int) x]: NaN becomes 0, other values are
    rounded toward zero and kept within the [int] range. *)
Definition f2i (x : float32) : Z :=
  match x with
  | S754_nan => 0
  | S754_zero _ => 0
  | S754_infinity s => if s then - 2 ^ 31 else 2 ^ 31 - 1
  | S754_finite s m e =>
      let q := if 0 <=? e then Z.pos m * 2 ^ e else Z.pos m / 2 ^ (- e) in
      let v := if s then - q else q in
      Z.max (- 2 ^ 31) (Z.min (2 ^ 31 - 1) v)
  end.

Inductive WindowType := TYPE_APPLICATION_OVERLAY | TYPE_PHONE.

(** Calls on the window manager. *)
Inductive WMCall :=
| AddView (type : WindowType) (x y : Z)
| UpdateViewLayout (x y : Z)
| RemoveView.

(** The service: whether [overlayView] is non-null, [params.x] and
    [params.y], the four fields of the touch listener, and the calls made
    on the window manager. *)
Record Service := mkService {
  overlayView : bool;
  params_x : Z;
  params_y : Z;
  initialX : Z;
  initialY : Z;
  initialTouchX : float32;
  initialTouchY : float32;
  wm : list WMCall }.

(** A service object before [onCreate]. *)
Definition newService : Service :=
  mkService false 0 0 0 0 (S754_zero false) (S754_zero false) [].

Definition onCreate (sdk : Z) (s : Service) : Service :=
  let type := if VERSION_CODES_O <=? sdk then TYPE_APPLICATION_OVERLAY
              else TYPE_PHONE in
  mkService true 20 100 0 0 (S754_zero false) (S754_zero false)
            (wm s ++ [AddView type 20 100]).

(** [MotionEvent.ACTION_DOWN] and [MotionEvent.ACTION_MOVE]. *)
Definition ACTION_DOWN : Z := 0.
Definition ACTION_MOVE : Z := 2.

(** [onTouch]: the new state and the boolean returned. *)
Definition onTouch (action : Z) (rawX rawY : float32) (s : Service)
    : Service * bool :=
  if action =? ACTION_DOWN then
    (mkService (overlayView s) (params_x s) (params_y s)
               (params_x s) (params_y s) rawX rawY (wm s), true)
  else if action =? ACTION_MOVE then
    let x := wrap32 (initialX s + f2i (fsub (initialTouchX s) rawX)) in
    let y := wrap32 (initialY s + f2i (fsub rawY (initialTouchY s))) in
    (mkService (overlayView s) x y (initialX s) (initialY s)
               (initialTouchX s) (initialTouchY s)
               (wm s ++ [UpdateViewLayout x y]), true)
  else (s, false).

Definition onDestroy (s : Service) : Service :=
  if overlayView s then
    mkService false (params_x s) (params_y s) (initialX s) (initialY s)
              (initialTouchX s) (initialTouchY s) (wm s ++ [RemoveView])
  else s.

(** ** Notions of the revised statements *)

(** [t] is [x] rounded to the nearest integer, the upper one at a tie. A
    Number that is not finite, or whose binary exponent is not negative,
    has no fractional part and is its own rounding. Otherwise [x] is the
    fraction [n/d] with [d] a power of two, and [t] is the Number of the
    integer [r] with [r - 1/2 <= n/d < r + 1/2], a zero taking the sign
    of [x]. *)
Definition roundedToNearest (x t : float) : Prop :=
  match Prim2SF x with
  | S754_finite s m e =>
      if 0 <=? e then t = x
      else
        let n := if s then Z.neg m else Z.pos m in
        let d := 2 ^ (- e) in
        exists r : Z,
          2 * d * r - d <= 2 * n < 2 * d * r + d /\
          t = if r =? 0 then (if s then (-0)%float else 0%float) else Z2F r
  | _ => t = x
  end.

(** A Number that is a finite integer, of either sign. *)
Definition integerNumber (x : float) : bool :=
  match Prim2SF x with
  | S754_zero _ => true
  | S754_finite _ m e => (0 <=? e) || (Z.pos m mod 2 ^ (- e) =? 0)
  | _ => false
  end.

(** The numeral of 310 nines. *)
Definition manyNines : jsstring := List.repeat 57%N 310.

(** The events whose handler runs without awaiting anything: an edit and
    the two selections. *)
Definition isSynchronous (ev : Event) : bool :=
  match ev with
  | StatChange _ _ _ | DistancePress _ | StrategyPress _ => true
  | _ => false
  end.

(** ** [captureAndAnalyze] with its awaits

    [captureAndAnalyze] awaits twice, [captureScreen] and then
    [performOCR], and other handlers can run in between. A capture in
    flight keeps the render whose handler started it and the await it is
    suspended at. *)
Inductive Phase := AwaitCapture | AwaitOCR.

Record InFlight := mkInFlight { f_render : Render; f_phase : Phase }.

Record AsyncState := mkAsync { component : AppState; inflight : list InFlight }.

Definition initialAsync : AsyncState := mkAsync initialState [].

(** The list without its element at index [i]. *)
Definition removeAt {A : Type} (i : nat) (l : list A) : list A :=
  firstn i l ++ skipn (S i) l.

(** The list with its element at index [i] replaced. *)
Definition replaceAt {A : Type} (i : nat) (a : A) (l : list A) : list A :=
  firstn i l ++ a :: skipn (S i) l.

(** The test button is disabled while [loading]; the overlay listener
    always runs, with the handler of the first render. A capture settles
    when [captureScreen] resolves to an image or throws, and then when
    [performOCR] resolves; the synchronous handlers run at any time. *)
Inductive AsyncEvent :=
| PressTestCapture
| OverlayRequest
| CaptureSettles (i : nat) (uri : option jsstring)
| RecognitionSettles (i : nat) (ocr : option jsstring)
| Edit (stat : StatKey) (field : Field) (value : jsstring)
| SelectDistance (key : Distance)
| SelectStrategy (key : Strategy).

Definition asyncStep (st : AsyncState) (ev : AsyncEvent) : AsyncState :=
  match ev with
  | PressTestCapture =>
      if loading (component st) then st
      else mkAsync (setLoading true (component st))
                   (inflight st ++ [mkInFlight (render (component st)) AwaitCapture])
  | OverlayRequest =>
      mkAsync (setLoading true (component st))
              (inflight st ++ [mkInFlight (render initialState) AwaitCapture])
  | CaptureSettles i result =>
      match nth_error (inflight st) i with
      | Some (mkInFlight r AwaitCapture) =>
          match result with
          | Some uri =>
              mkAsync (setCapturedImage uri (component st))
                      (replaceAt i (mkInFlight r AwaitOCR) (inflight st))
          | None =>
              mkAsync (setLoading false (alert AlertCaptureFailed (component st)))
                      (removeAt i (inflight st))
          end
      | _ => st
      end
  | RecognitionSettles i ocr =>
      match nth_error (inflight st) i with
      | Some (mkInFlight r AwaitOCR) =>
          let a :=
            match performOCR ocr with
            | Some extractedStats =>
                setCalculated
                  (calculateEvaluation extractedStats (r_distance r) (r_strategy r))
                  (setStats extractedStats (component st))
            | None => setStats zeroStats (alert AlertReadFailed (component st))
            end in
          mkAsync (setLoading false a) (removeAt i (inflight st))
      | _ => st
      end
  | Edit stat field value =>
      mkAsync (step (component st) (StatChange stat field value)) (inflight st)
  | SelectDistance key =>
      mkAsync (step (component st) (DistancePress key)) (inflight st)
  | SelectStrategy key =>
      mkAsync (step (component st) (StrategyPress key)) (inflight st)
  end.

Inductive asyncReachable : AsyncState -> Prop :=
| async_init : asyncReachable initialAsync
| async_step st ev : asyncReachable st -> asyncReachable (asyncStep st ev).

(** * Properties *)

(** ** The regular expression *)

Section RegExp.

Lemma match_all_cons c s :
  match_all (c :: s) =
  match match_here (c :: s) with
  | Some t => t :: match_all (skipn (List.length t) (c :: s))
  | None => match_all s
  end.
Proof.
  simp match_all.
  destruct (inspect (match_here (c :: s))) as [[t|] e];
    simp match_all; rewrite e; reflexivity.
Qed.

Lemma match_all_nondigit c s :
  isDigit c = false -> match_all (c :: s) = match_all s.
Proof.
  intros H. rewrite match_all_cons. unfold match_here. simpl.
  rewrite H. reflexivity.
Qed.

Lemma take_digits_headNotDigit n s :
  headNotDigit s -> take_digits n s = [].
Proof.
  destruct n as [|n], s as [|c s]; simpl; try reflexivity.
  intros ->. reflexivity.
Qed.

(** Induction over a list four elements at a time. *)
Lemma list_ind4 (A : Type) (P : list A -> Prop) :
  P [] -> (forall a, P [a]) -> (forall a b, P [a; b]) ->
  (forall a b c, P [a; b; c]) ->
  (forall a b c d r, P r -> P (a :: b :: c :: d :: r)) ->
  forall r, P r.
Proof.
  intros H0 H1 H2 H3 H4.
  fix IH 1.
  intros [|a [|b [|c [|d r]]]];
    [apply H0 | apply H1 | apply H2 | apply H3 | apply H4, IH].
Qed.

Lemma take_digits_digit n c s :
  isDigit c = true -> take_digits (S n) (c :: s) = c :: take_digits n s.
Proof. intros H. simpl. rewrite H. reflexivity. Qed.

(** Decide [match_here] on a string whose leading digits are known. *)
Ltac match_here_known Hs :=
  rewrite match_all_cons; unfold match_here;
  rewrite ?take_digits_digit by assumption;
  try rewrite (take_digits_headNotDigit _ _ Hs);
  cbn [Datatypes.length Nat.leb skipn take_digits].

(** Inside a maximal run of digits the matches are its groups. *)
Lemma match_all_run r s :
  forallb isDigit r = true -> headNotDigit s ->
  match_all (r ++ s) = chunks r ++ match_all s.
Proof.
  intros Hr Hs. induction r as [|a|a b|a b c|a b c d r IH] using list_ind4;
    simpl in Hr; repeat (apply andb_prop in Hr as [? Hr]);
    cbn [app chunks].
  - reflexivity.
  - match_here_known Hs. reflexivity.
  - match_here_known Hs. match_here_known Hs. reflexivity.
  - match_here_known Hs. reflexivity.
  - match_here_known Hs. rewrite IH by assumption. reflexivity.
Qed.

Lemma spanDigits_spec s :
  s = fst (spanDigits s) ++ snd (spanDigits s) /\
  forallb isDigit (fst (spanDigits s)) = true /\
  headNotDigit (snd (spanDigits s)).
Proof.
  induction s as [|c s (IH1 & IH2 & IH3)]; simpl; [auto|].
  destruct (isDigit c) eqn:E.
  - destruct (spanDigits s) as [r rest]. simpl in *.
    rewrite E, IH2. repeat split; [congruence | assumption].
  - simpl. auto.
Qed.

Lemma digitRuns_cons c s :
  digitRuns (c :: s) =
  if isDigit c
  then (c :: fst (spanDigits s)) :: digitRuns (snd (spanDigits s))
  else digitRuns s.
Proof. simp digitRuns. reflexivity. Qed.

(** The matches of a text are the groups of its maximal digit runs. *)
Lemma match_all_digitRuns s :
  match_all s = flat_map chunks (digitRuns s).
Proof.
  remember (List.length s) as n eqn:En. revert s En.
  induction n as [n IH] using lt_wf_ind. intros [|c s] En.
  - reflexivity.
  - rewrite digitRuns_cons. destruct (isDigit c) eqn:E.
    + destruct (spanDigits_spec s) as (Hs & Hd & Hn).
      pose proof (spanDigits_length s) as Hl.
      cbn [flat_map]. rewrite <- (IH (List.length (snd (spanDigits s))));
        [|simpl in En; lia|reflexivity].
      rewrite <- match_all_run; [|simpl; rewrite E; exact Hd|exact Hn].
      cbn [app]. rewrite <- Hs. reflexivity.
    + rewrite match_all_nondigit by exact E.
      apply (IH (List.length s)); [simpl in En; lia|reflexivity].
Qed.

(** Every match is three or four digits. *)
Lemma match_here_digits s t :
  match_here s = Some t ->
  forallb isDigit t = true /\ (3 <= List.length t <= 4)%nat.
Proof.
  unfold match_here.
  assert (G : forall n s, forallb isDigit (take_digits n s) = true /\
                          (List.length (take_digits n s) <= n)%nat).
  { clear. induction n as [|n IH]; intros [|c s]; simpl; try (split; [reflexivity|lia]).
    destruct (isDigit c) eqn:E; simpl; [|split; [reflexivity|lia]].
    destruct (IH s) as [-> ?]. rewrite E. split; [reflexivity|lia]. }
  destruct (G 4%nat s) as [G1 G2].
  remember (take_digits 4 s) as t0 eqn:E0. clear E0.
  destruct (Nat.leb_spec 3 (List.length t0)); [|discriminate].
  intros [= <-]. split; [assumption|lia].
Qed.

Lemma match_all_digits s :
  Forall (fun t => forallb isDigit t = true /\ (3 <= List.length t <= 4)%nat)
         (match_all s).
Proof.
  remember (List.length s) as n eqn:En. revert s En.
  induction n as [n IH] using lt_wf_ind. intros [|c s] En.
  - constructor.
  - rewrite match_all_cons. destruct (match_here (c :: s)) as [t|] eqn:E.
    + constructor; [exact (match_here_digits _ _ E)|].
      apply match_here_length in E.
      apply (IH (List.length (skipn (List.length t) (c :: s))));
        [rewrite length_skipn; cbn [Datatypes.length] in *; lia|reflexivity].
    + apply (IH (List.length s)); [simpl in En; lia|reflexivity].
Qed.

End RegExp.

(** C5, as stated, fails: the five-digit run of ["12345"] is not of
    length 3 or 4, yet it contributes the token ["1234"]. *)
Lemma tokens_not_runs_of_length34 :
  match_all (str "12345") = [str "1234"] /\
  digitRuns (str "12345") = [str "12345"] /\
  match_all (str "12345")
    <> filter length34 (digitRuns (str "12345")).
Proof.
  split; [reflexivity|]. split; [reflexivity|].
  vm_compute. discriminate.
Qed.

(** C5, amended: for every text, the tokens the extraction collects are,
    in order of appearance, the groups of its maximal digit runs: each
    run is cut into groups of four digits from its start, followed by a
    group of three when exactly three digits remain. A run of three or
    four digits contributes itself, a run of one or two digits nothing,
    and a longer run its leading four digits and then the groups of what
    is left. [String.match] returns null exactly when there is no
    group. *)
Theorem tokens_are_groups_of_runs :
  forall text : jsstring,
    match_all text = flat_map chunks (digitRuns text) /\
    String_match text =
      match flat_map chunks (digitRuns text) with
      | [] => None
      | ms => Some ms
      end /\
    (forall a b c, chunks [a; b; c] = [[a; b; c]]) /\
    (forall a b c d, chunks [a; b; c; d] = [[a; b; c; d]]) /\
    (forall a, chunks [a] = []) /\
    (forall a b, chunks [a; b] = []) /\
    (forall a b c d e r,
        chunks (a :: b :: c :: d :: e :: r) = [a; b; c; d] :: chunks (e :: r)).
Proof.
  intros text. unfold String_match. rewrite match_all_digitRuns.
  repeat split.
Qed.

(** ** [parseInt] on the tokens *)

Section ParseInt.
Local Open Scope N_scope.

Lemma isDigit_range c : isDigit c = true -> 48 <= c <= 57.
Proof.
  unfold isDigit. intros H. apply andb_prop in H as [H1 H2].
  apply N.leb_le in H1, H2. lia.
Qed.

Ltac decide_N_tests :=
  repeat match goal with
    | |- context [N.eqb ?c ?k] =>
        replace (N.eqb c k) with false by (symmetry; apply N.eqb_neq; lia)
    | |- context [N.leb ?a ?b] =>
        first [ replace (N.leb a b) with true by (symmetry; apply N.leb_le; lia)
              | replace (N.leb a b) with false by (symmetry; apply N.leb_gt; lia) ]
    | |- context [N.ltb ?a ?b] =>
        first [ replace (N.ltb a b) with true by (symmetry; apply N.ltb_lt; lia)
              | replace (N.ltb a b) with false by (symmetry; apply N.ltb_ge; lia) ]
    end.

Lemma digit_not_white c : isDigit c = true -> isWhiteSpace c = false.
Proof.
  intros H%isDigit_range. unfold isWhiteSpace. decide_N_tests. reflexivity.
Qed.

Lemma digit_value_decimal c :
  isDigit c = true -> digit_value 10 c = Some (c - 48).
Proof.
  intros H%isDigit_range. unfold digit_value. decide_N_tests.
  cbn [andb]. decide_N_tests. reflexivity.
Qed.

Lemma leading_digits_decimal t :
  forallb isDigit t = true ->
  leading_digits 10 t = List.map (fun c => c - 48) t.
Proof.
  induction t as [|c t IH]; simpl; [reflexivity|].
  intros H. apply andb_prop in H as [Hc Ht].
  rewrite (digit_value_decimal c Hc), (IH Ht). reflexivity.
Qed.

Lemma mathInt_decimal t :
  mathInt 10 (List.map (fun c => c - 48) t) = decimal t.
Proof.
  unfold mathInt, decimal. generalize 0. induction t as [|c t IH]; intros acc.
  - reflexivity.
  - simpl. apply IH.
Qed.

(** On a non-empty string of decimal digits [parseInt] reads no white
    space, no sign and no prefix, and returns the Number of the integer
    the digits denote. *)
Lemma parseInt_digits t :
  forallb isDigit t = true -> t <> [] -> parseInt t = tokenValue t.
Proof.
  intros Ht Hne. destruct t as [|a t]; [congruence|]. clear Hne.
  pose proof Ht as Hall. simpl in Ht. apply andb_prop in Ht as [Ha Ht].
  unfold parseInt. cbn [trim_start]. rewrite (digit_not_white a Ha).
  pose proof (isDigit_range a Ha) as Ra.
  replace (a =? 45) with false by (symmetry; apply N.eqb_neq; lia).
  replace (a =? 43) with false by (symmetry; apply N.eqb_neq; lia).
  assert (E : forall ds : list N,
             ds <> [] ->
             match ds with
             | [] => PrimFloat.nan
             | n :: l =>
                 if mathInt 10 (n :: l) =? 0 then 0%float
                 else Z2F (Z.of_N (mathInt 10 (n :: l)))
             end = Z2F (Z.of_N (mathInt 10 ds))).
  { intros [|d ds] Hds; [congruence|].
    destruct (N.eqb_spec (mathInt 10 (d :: ds)) 0) as [-> |_]; reflexivity. }
  unfold tokenValue. rewrite <- mathInt_decimal.
  rewrite <- (leading_digits_decimal _ Hall).
  destruct t as [|x r].
  - apply E. cbn [leading_digits]. rewrite (digit_value_decimal a Ha).
    discriminate.
  - simpl in Ht. apply andb_prop in Ht as [Hx _].
    apply isDigit_range in Hx.
    replace (x =? 120) with false by (symmetry; apply N.eqb_neq; lia).
    replace (x =? 88) with false by (symmetry; apply N.eqb_neq; lia).
    rewrite andb_false_r.
    apply E. cbn [leading_digits]. rewrite (digit_value_decimal a Ha).
    discriminate.
Qed.

Lemma decimal_bound t :
  forallb isDigit t = true -> (List.length t <= 4)%nat ->
  decimal t <= 9999.
Proof.
  intros Ht Hl. unfold decimal.
  destruct t as [|a [|b [|c [|d [|e t]]]]]; simpl in Hl; try lia;
    simpl in Ht;
    repeat match goal with
      | H : _ && _ = true |- _ => apply andb_prop in H as [?%isDigit_range H]
      end;
    simpl; lia.
Qed.

End ParseInt.

(** ** Extraction *)

Section Extraction.

Lemma extractStats_Some text :
  (10 <= List.length (match_all text))%nat ->
  extractStats text =
    Some (statsOfNumbers (List.map tokenValue (firstn 10 (match_all text)))).
Proof.
  intros Hlen. pose proof (match_all_digits text) as Hd.
  unfold extractStats, String_match.
  destruct (match_all text) as [|m0 ms] eqn:Ems; [simpl in Hlen; lia|].
  rewrite <- Ems in *. clear Ems m0 ms.
  destruct (Nat.ltb_spec (List.length (match_all text)) 10) as [?|_]; [lia|].
  remember (match_all text) as l eqn:El. clear El text.
  do 10 (destruct l as [|? l]; [simpl in Hlen; lia|]).
  repeat match goal with
    | H : Forall _ (_ :: _) |- _ =>
        let H1 := fresh "D" in
        apply Forall_cons_iff in H as [[H1 ?] H]
    end.
  cbn [firstn List.map statsOfNumbers nth].
  rewrite !parseInt_digits; try assumption;
    try (intros ->; simpl in *; lia).
  reflexivity.
Qed.

Lemma extractStats_None text :
  (List.length (match_all text) < 10)%nat -> extractStats text = None.
Proof.
  intros Hlen. unfold extractStats, String_match.
  destruct (match_all text) as [|m0 ms] eqn:Ems; [reflexivity|].
  destruct (Nat.ltb_spec (List.length (m0 :: ms)) 10) as [_|?]; [reflexivity|lia].
Qed.

End Extraction.

(** C2: for every text, extraction gives no result when the text has
    fewer than ten matches of three or four digits, and otherwise lays
    the values of the first ten matches out as speed.current, speed.max,
    stamina.current, stamina.max, power.current, power.max, guts.current,
    guts.max, wisdom.current, wisdom.max. *)
Theorem extraction_positional (text : jsstring) :
  Forall (fun t => forallb isDigit t = true /\ (3 <= List.length t <= 4)%nat)
         (match_all text) /\
  ((List.length (match_all text) < 10)%nat ->
     performOCR (Some text) = None) /\
  ((10 <= List.length (match_all text))%nat ->
     performOCR (Some text) =
       Some (statsOfNumbers
               (List.map tokenValue (firstn 10 (match_all text))))).
Proof.
  split; [apply match_all_digits|].
  split; intros H; simpl.
  - apply extractStats_None, H.
  - apply extractStats_Some, H.
Qed.

Lemma extraction_positional_witness :
  performOCR (Some twoNumbers) = None /\
  performOCR (Some tenNumbers) =
    Some (statsOfNumbers
            (List.map tokenValue (firstn 10 (match_all tenNumbers)))).
Proof.
  split.
  - apply (proj1 (proj2 (extraction_positional twoNumbers))). vm_compute. lia.
  - apply (proj2 (proj2 (extraction_positional tenNumbers))). vm_compute. lia.
Defined.

(** ** Evaluation *)

Section EvaluationFacts.
Local Open Scope float_scope.

(** A Number differs from another when comparing them says so. *)
Lemma float_neq (x y : float) :
  PrimFloat.eqb x x = true -> PrimFloat.eqb x y = false -> x <> y.
Proof. intros Hx Hxy E. rewrite <- E in Hxy. congruence. Qed.

(** The literals of the two tables are the Numbers nearest to the
    tenths they are written as. *)
Lemma distanceCoef_tenths d k :
  get k (distanceCoef d) = tenths (get k (distance_tenths d)).
Proof. destruct d, k; reflexivity. Qed.

Lemma strategyCoef_tenths g k :
  get k (strategyCoef g) = tenths (get k (strategy_tenths g)).
Proof. destruct g, k; reflexivity. Qed.

Lemma individual_get s d g k :
  get k (individual (calculateEvaluation s d g)) =
  current (get k s) * get k (distanceCoef d) * get k (strategyCoef g).
Proof. destruct k; reflexivity. Qed.

(** [round_half_up n d] is the integer nearest to [n/d], the upper one
    at a tie. *)
Lemma round_half_up_nearest n d :
  (0 < d)%Z ->
  (2 * d * round_half_up n d - d <= 2 * n
   < 2 * d * round_half_up n d + d)%Z.
Proof.
  intros Hd. unfold round_half_up.
  pose proof (Z.div_mod (2 * n + d) (2 * d) ltac:(lia)) as E.
  pose proof (Z.mod_pos_bound (2 * n + d) (2 * d) ltac:(lia)) as B.
  lia.
Qed.

(** On a finite Number with a fractional exponent, [Math.round] returns
    the nearest integer [r] (the upper one at a tie), a zero taking the
    sign of the argument. *)
Lemma Math_round_nearest x s m e :
  Prim2SF x = S754_finite s m e -> (e < 0)%Z ->
  let n := if s then Z.neg m else Z.pos m in
  let d := (2 ^ (- e))%Z in
  exists r : Z,
    (2 * d * r - d <= 2 * n < 2 * d * r + d)%Z /\
    Math_round x =
      if (r =? 0)%Z then (if s then -0 else 0) else Z2F r.
Proof.
  intros Hx He n d. exists (round_half_up n d). split.
  - apply round_half_up_nearest. subst d. apply Z.pow_pos_nonneg; lia.
  - unfold Math_round. rewrite Hx.
    destruct (Z.leb_spec 0 e) as [?|_]; [lia|]. reflexivity.
Qed.

(** [Math.round] rounds to the nearest integer, the upper one at a
    tie. *)
Lemma Math_round_roundedToNearest x : roundedToNearest x (Math_round x).
Proof.
  unfold roundedToNearest, Math_round.
  destruct (Prim2SF x) as [s|s| |s m e]; try reflexivity.
  destruct (Z.leb_spec 0 e) as [He|He]; [reflexivity|].
  cbv zeta.
  exists (round_half_up (if s then Z.neg m else Z.pos m) (2 ^ (- e))).
  split; [|reflexivity].
  apply round_half_up_nearest. apply Z.pow_pos_nonneg; lia.
Qed.

(** At most one Number is the rounding of [x]. *)
Lemma roundedToNearest_unique x t1 t2 :
  roundedToNearest x t1 -> roundedToNearest x t2 -> t1 = t2.
Proof.
  unfold roundedToNearest.
  destruct (Prim2SF x) as [s|s| |s m e]; try congruence.
  destruct (0 <=? e)%Z eqn:He; [congruence|]. cbv zeta.
  assert (Hd : (0 < 2 ^ (- e))%Z)
    by (apply Z.leb_gt in He; apply Z.pow_pos_nonneg; lia).
  intros (r1 & H1 & ->) (r2 & H2 & ->).
  replace r2 with r1 by nia. reflexivity.
Qed.

End EvaluationFacts.

(** C1: for every StatBlock and every distance and strategy, each
    per-stat score is the current value times the distance coefficient
    times the strategy coefficient of that stat, with the coefficients of
    the two tables, and the total is the sum of the five scores, added in
    key order, rounded to the nearest integer: the sum itself when it has
    no fractional part, and otherwise the Number of the integer [r] with
    [r - 1/2 <= sum < r + 1/2]. *)
Theorem calculateEvaluation_scores_and_total
    (s : Stats) (d : Distance) (g : Strategy) :
  let r := calculateEvaluation s d g in
  (forall k : StatKey,
      get k (individual r) =
      (current (get k s) * tenths (get k (distance_tenths d))
       * tenths (get k (strategy_tenths g)))%float) /\
  roundedToNearest (sumLeft (scores (individual r))) (total r) /\
  (forall t, roundedToNearest (sumLeft (scores (individual r))) t ->
             t = total r).
Proof.
  split; [|split].
  - intros k. rewrite <- distanceCoef_tenths, <- strategyCoef_tenths.
    apply individual_get.
  - apply Math_round_roundedToNearest.
  - intros t Ht. apply (roundedToNearest_unique _ _ _ Ht).
    apply Math_round_roundedToNearest.
Qed.

Lemma calculateEvaluation_scores_and_total_witness :
  11%float = total (calculateEvaluation threes short nige).
Proof.
  apply (proj2 (proj2 (calculateEvaluation_scores_and_total threes short nige))).
  unfold roundedToNearest.
  replace (Prim2SF (sumLeft (scores (individual
             (calculateEvaluation threes short nige)))))
    with (S754_finite false 6248744482976563 (-49)) by (vm_compute; reflexivity).
  cbv iota zeta. change (0 <=? -49) with false. cbv iota.
  exists 11. split; [|reflexivity].
  change (- -49) with 49. lia.
Defined.

(** C3: for every total the rating is the label of the first threshold,
    from the top, that the total reaches: SS from 6000, S from 5500, A+
    from 5000, A from 4500, B from 4000, and C when it reaches none (a
    NaN total reaches none); 6000 gives SS, 5999 gives S, 3999 gives C,
    and so on at each threshold. *)
Theorem getRating_thresholds (total : float) :
  (ge total 6000 -> getRating total = "SS"%string) /\
  (~ ge total 6000 -> ge total 5500 -> getRating total = "S"%string) /\
  (~ ge total 6000 -> ~ ge total 5500 -> ge total 5000 ->
     getRating total = "A+"%string) /\
  (~ ge total 6000 -> ~ ge total 5500 -> ~ ge total 5000 -> ge total 4500 ->
     getRating total = "A"%string) /\
  (~ ge total 6000 -> ~ ge total 5500 -> ~ ge total 5000 ->
   ~ ge total 4500 -> ge total 4000 -> getRating total = "B"%string) /\
  (~ ge total 6000 -> ~ ge total 5500 -> ~ ge total 5000 ->
   ~ ge total 4500 -> ~ ge total 4000 -> getRating total = "C"%string) /\
  List.map getRating [6000; 5999; 5500; 5499; 5000; 4999; 4500; 4499;
                      4000; 3999; 0; PrimFloat.nan]%float
  = ["SS"; "S"; "S"; "A+"; "A+"; "A"; "A"; "B"; "B"; "C"; "C"; "C"]%string.
Proof.
  unfold ge, getRating.
  destruct (6000 <=? total)%float; [repeat split; congruence|].
  destruct (5500 <=? total)%float; [repeat split; congruence|].
  destruct (5000 <=? total)%float; [repeat split; congruence|].
  destruct (4500 <=? total)%float; [repeat split; congruence|].
  destruct (4000 <=? total)%float; repeat split; congruence.
Qed.

Lemma getRating_thresholds_witness :
  getRating 6000%float = "SS"%string /\
  getRating 5999%float = "S"%string /\
  getRating 5200%float = "A+"%string /\
  getRating 4700%float = "A"%string /\
  getRating 4000%float = "B"%string /\
  getRating 3999%float = "C"%string.
Proof.
  split; [apply (proj1 (getRating_thresholds 6000%float)); reflexivity|].
  split; [apply (proj1 (proj2 (getRating_thresholds 5999%float)));
          [vm_compute; discriminate | reflexivity]|].
  split; [apply (proj1 (proj2 (proj2 (getRating_thresholds 5200%float))));
          first [reflexivity | vm_compute; discriminate]|].
  split; [apply (proj1 (proj2 (proj2 (proj2 (getRating_thresholds 4700%float)))));
          first [reflexivity | vm_compute; discriminate]|].
  split; [apply (proj1 (proj2 (proj2 (proj2 (proj2
                   (getRating_thresholds 4000%float))))));
          first [reflexivity | vm_compute; discriminate]|].
  apply (proj1 (proj2 (proj2 (proj2 (proj2 (proj2
           (getRating_thresholds 3999%float)))))));
    vm_compute; discriminate.
Defined.

(** C4: with every current value 1000, middle distance and front-runner
    give the scores 1200, 1100, 1000, 1000, 900, the total 5200 and the
    rating A+; long distance and closer give 720, 1200, 960, 1440, 1320,
    the total 5640 and the rating S. The scores are these Numbers before
    any rounding, hence also as displayed. *)
Theorem all_thousand_examples (s : Stats) :
  (forall k, current (get k s) = 1000%float) ->
  let r1 := calculateEvaluation s middle nige in
  let r2 := calculateEvaluation s long oikomi in
  (scores (individual r1) = [1200; 1100; 1000; 1000; 900]%float /\
   displayedScores r1 = [1200; 1100; 1000; 1000; 900]%float /\
   total r1 = 5200%float /\ rating r1 = "A+"%string) /\
  (scores (individual r2) = [720; 1200; 960; 1440; 1320]%float /\
   displayedScores r2 = [720; 1200; 960; 1440; 1320]%float /\
   total r2 = 5640%float /\ rating r2 = "S"%string).
Proof.
  intros H.
  pose proof (H Kspeed) as H1. pose proof (H Kstamina) as H2.
  pose proof (H Kpower) as H3. pose proof (H Kguts) as H4.
  pose proof (H Kwisdom) as H5. clear H.
  destruct s as [[c1 m1] [c2 m2] [c3 m3] [c4 m4] [c5 m5]].
  simpl in H1, H2, H3, H4, H5. subst.
  repeat split; reflexivity.
Qed.

Lemma all_thousand_examples_witness :
  total (calculateEvaluation allThousand middle nige) = 5200%float /\
  total (calculateEvaluation allThousand long oikomi) = 5640%float.
Proof.
  assert (H : forall k, current (get k allThousand) = 1000%float)
    by (intros k; destruct k; reflexivity).
  split.
  - exact (proj1 (proj2 (proj2 (proj1 (all_thousand_examples allThousand H))))).
  - exact (proj1 (proj2 (proj2 (proj2 (all_thousand_examples allThousand H))))).
Defined.

(** C6: for every StatBlock and categories, the total is [Math.round] of
    the sum of the five scores as they are stored, which are the
    unrounded products; rounding each score happens only where the result
    card displays them. The order matters: with every current value 3,
    short distance and front-runner, the total is 11 while the displayed
    scores 4, 2, 3, 2, 1 add up to 12. *)
Theorem total_rounds_the_unrounded_sum :
  (forall (s : Stats) (d : Distance) (g : Strategy),
      let r := calculateEvaluation s d g in
      total r = Math_round (sumLeft (scores (individual r))) /\
      (forall k, get k (individual r) =
                 (current (get k s) * get k (distanceCoef d)
                  * get k (strategyCoef g))%float) /\
      displayedScores r = List.map Math_round (scores (individual r))) /\
  (let r := calculateEvaluation threes short nige in
   total r = 11%float /\
   displayedScores r = [4; 2; 3; 2; 1]%float /\
   sumLeft (displayedScores r) = 12%float /\
   total r <> sumLeft (displayedScores r) /\
   scores (individual r) <> displayedScores r).
Proof.
  split.
  - intros s d g. repeat split. intros k. apply individual_get.
  - repeat split.
    + apply float_neq; reflexivity.
    + intros E. apply (f_equal (fun l => nth 0 l 0%float)) in E.
      revert E. apply float_neq; reflexivity.
Qed.

(** ** The handlers *)

Section Handlers.

(** The three zeros and NaN are falsy. *)
Lemma or_else_nan (x : float) :
  PrimFloat.is_nan x = true -> or_else x 0%float = 0%float.
Proof. intros H. unfold or_else, truthy. rewrite H. reflexivity. Qed.

(** [parseInt] returns NaN, a zero, or the Number of an integer. *)
Lemma parseInt_cases (v : jsstring) :
  parseInt v = PrimFloat.nan \/ parseInt v = 0%float \/
  parseInt v = (-0)%float \/ exists z : Z, parseInt v = Z2F z.
Proof.
  unfold parseInt.
  destruct (match trim_start v with
            | [] => (false, trim_start v)
            | c :: r =>
                if (c =? 45)%N then (true, r)
                else if (c =? 43)%N then (false, r)
                else (false, trim_start v)
            end) as [neg s2].
  destruct (match s2 with
            | c :: x :: r =>
                if ((c =? 48) && ((x =? 120) || (x =? 88)))%N then (16%N, r)
                else (10%N, s2)
            | _ => (10%N, s2)
            end) as [R s3].
  destruct (leading_digits R s3) as [|d ds]; [left; reflexivity|].
  destruct (mathInt R (d :: ds) =? 0)%N; destruct neg; eauto.
Qed.

(** What a manual edit stores is always the Number of an integer. *)
Lemma or_else_parseInt_integer (v : jsstring) :
  exists z : Z, or_else (parseInt v) 0%float = Z2F z.
Proof.
  destruct (parseInt_cases v) as [E|[E|[E|[z E]]]]; rewrite E.
  - exists 0. reflexivity.
  - exists 0. reflexivity.
  - exists 0. reflexivity.
  - unfold or_else. destruct (truthy (Z2F z)); [exists z|exists 0]; reflexivity.
Qed.

Lemma getStat_set_same (s : Stats) k f v :
  getStat (set k (set_field f v (get k s)) s) k f = v.
Proof. destruct k, f; reflexivity. Qed.

Lemma getStat_set_other (s : Stats) k f v k' f' :
  (k', f') <> (k, f) ->
  getStat (set k (set_field f v (get k s)) s) k' f' = getStat s k' f'.
Proof. destruct k, f, k', f'; intros H; try reflexivity; congruence. Qed.

Lemma StatKey_Field_dec (a b : StatKey * Field) : {a = b} + {a <> b}.
Proof. repeat decide equality. Qed.

(** The Numbers of the integers below ten thousand are non-negative
    integers. *)
Lemma nonnegInteger_small (n : Z) :
  0 <= n < 10000 -> nonnegInteger (Z2F n) = true.
Proof.
  intros Hn.
  assert (H : forallb (fun n => nonnegInteger (Z2F n)) (rangeZ 10000) = true)
    by (vm_compute; reflexivity).
  rewrite forallb_forall in H. apply H. unfold rangeZ.
  apply in_map_iff. exists (Z.to_nat n). split; [lia|].
  apply in_seq. lia.
Qed.

(** The values a successful extraction delivers. *)
Lemma extractStats_values text s :
  extractStats text = Some s ->
  forall k f, exists n : Z,
    0 <= n <= 9999 /\ getStat s k f = Z2F n.
Proof.
  intros E.
  destruct (Nat.ltb_spec (List.length (match_all text)) 10) as [Hl|Hl].
  - rewrite (extractStats_None _ Hl) in E. discriminate.
  - rewrite (extractStats_Some _ Hl) in E. injection E as <-.
    pose proof (match_all_digits text) as Hd.
    remember (match_all text) as l eqn:El. clear El text.
    do 10 (destruct l as [|? l]; [simpl in Hl; lia|]).
    repeat match goal with
      | H : Forall _ (_ :: _) |- _ =>
          let H1 := fresh "D" in
          let H2 := fresh "L" in
          apply Forall_cons_iff in H as [[H1 H2] H]
      end.
    intros k f.
    destruct k, f; cbn [getStat get get_field firstn List.map statsOfNumbers
                        nth speed stamina power guts wisdom current max];
      unfold tokenValue;
      (eexists; split; [|reflexivity]);
      match goal with
      | |- _ <= Z.of_N (decimal ?t) <= _ =>
          assert (decimal t <= 9999)%N by (apply decimal_bound; [assumption|lia]);
          lia
      end.
Qed.

End Handlers.

Section Reachability.

Lemma integerValues_zeroStats : integerValues zeroStats.
Proof. intros k f. exists 0. destruct k, f; reflexivity. Qed.

Lemma integerValues_extracted ocr s :
  performOCR ocr = Some s -> integerValues s.
Proof.
  destruct ocr as [text|]; [|discriminate]. simpl. intros E k f.
  destruct (extractStats_values text s E k f) as (n & _ & Hn).
  exists n. exact Hn.
Qed.

Lemma integerValues_edit s k f v :
  integerValues s ->
  integerValues (set k (set_field f (or_else (parseInt v) 0%float) (get k s)) s).
Proof.
  intros Hs k' f'.
  destruct (StatKey_Field_dec (k', f') (k, f)) as [E|E].
  - injection E as E1 E2. subst k' f'. rewrite getStat_set_same.
    apply or_else_parseInt_integer.
  - rewrite getStat_set_other by exact E. apply Hs.
Qed.

Lemma stats_captureAndAnalyze r o st :
  stats (captureAndAnalyze r o st) =
  match o with
  | CaptureThrows => stats st
  | Captured _ ocr =>
      match performOCR ocr with
      | Some extracted => Some extracted
      | None => Some zeroStats
      end
  end.
Proof.
  destruct o as [|uri ocr]; simpl; [reflexivity|].
  destruct (performOCR ocr); reflexivity.
Qed.

(** In every state the component can reach, the values of the StatBlock
    are Numbers of integers. *)
Lemma stats_pressDistance r d st :
  stats (pressDistance r d st) = stats st.
Proof. unfold pressDistance. destruct (r_stats r); reflexivity. Qed.

Lemma stats_pressStrategy r g st :
  stats (pressStrategy r g st) = stats st.
Proof. unfold pressStrategy. destruct (r_stats r); reflexivity. Qed.

Lemma stats_handleStatChange r k f v st :
  stats (handleStatChange r k f v st) =
  match r_stats r with
  | Some s =>
      Some (set k (set_field f (or_else (parseInt v) 0%float) (get k s)) s)
  | None => stats st
  end.
Proof. unfold handleStatChange. destruct (r_stats r); reflexivity. Qed.

(** In every state the component can reach, the values of the StatBlock
    are Numbers of integers. *)
Lemma reachable_integerValues st :
  reachable st -> forall s, stats st = Some s -> integerValues s.
Proof.
  induction 1 as [|st ev Hr IH]; intros s Hs; [discriminate|].
  assert (Hcap : forall r o,
             stats (captureAndAnalyze r o st) = Some s -> integerValues s).
  { intros r o Ho. rewrite stats_captureAndAnalyze in Ho.
    destruct o as [|uri ocr]; [auto|].
    destruct (performOCR ocr) as [e|] eqn:E; injection Ho as <-.
    - exact (integerValues_extracted _ _ E).
    - exact integerValues_zeroStats. }
  destruct ev as [o|o|k f v|d|g]; unfold step in Hs.
  - exact (Hcap _ _ Hs).
  - exact (Hcap _ _ Hs).
  - rewrite stats_handleStatChange in Hs. cbn [render r_stats] in Hs.
    destruct (stats st) as [s0|]; [|discriminate].
    injection Hs as <-. apply integerValues_edit. auto.
  - rewrite stats_pressDistance in Hs. auto.
  - rewrite stats_pressStrategy in Hs. auto.
Qed.

Lemma nonnegInteger_not_nan x :
  nonnegInteger x = true -> PrimFloat.is_nan x = false.
Proof.
  unfold nonnegInteger, Prim2SF. destruct (PrimFloat.is_nan x);
    [discriminate|reflexivity].
Qed.

Lemma or_else_not_nan x : PrimFloat.is_nan (or_else x 0%float) = false.
Proof.
  unfold or_else, truthy. destruct (PrimFloat.is_nan x) eqn:E; simpl.
  - reflexivity.
  - destruct (PrimFloat.is_zero x); simpl; [reflexivity|exact E].
Qed.

(** A property of Numbers that extraction, the placeholder and edits
    establish holds of every value in every reachable state. *)
Lemma reachable_values (P : float -> Prop) :
  (forall n : Z, 0 <= n <= 9999 -> P (Z2F n)) ->
  P 0%float ->
  (forall v : jsstring, P (or_else (parseInt v) 0%float)) ->
  forall st, reachable st ->
  forall s, stats st = Some s -> forall k f, P (getStat s k f).
Proof.
  intros Hext Hzero Hedit st Hr.
  induction Hr as [|st ev Hr IH]; intros s Hs; [discriminate|].
  assert (Hcap : forall r o,
             stats (captureAndAnalyze r o st) = Some s ->
             forall k f, P (getStat s k f)).
  { intros r o Ho. rewrite stats_captureAndAnalyze in Ho.
    destruct o as [|uri ocr]; [auto|].
    destruct (performOCR ocr) as [e|] eqn:E; injection Ho as <-.
    - destruct ocr as [text|]; [|discriminate]. intros k f.
      destruct (extractStats_values text e E k f) as (n & Hn & ->). auto.
    - intros k f. destruct k, f; exact Hzero. }
  destruct ev as [o|o|k f v|d|g]; unfold step in Hs.
  - exact (Hcap _ _ Hs).
  - exact (Hcap _ _ Hs).
  - rewrite stats_handleStatChange in Hs. cbn [render r_stats] in Hs.
    destruct (stats st) as [s0|]; [|discriminate].
    injection Hs as <-. intros k' f'.
    destruct (StatKey_Field_dec (k', f') (k, f)) as [E|E].
    + injection E as E1 E2. subst k' f'. rewrite getStat_set_same.
      apply Hedit.
    + rewrite getStat_set_other by exact E. apply (IH s0 eq_refl).
  - rewrite stats_pressDistance in Hs. auto.
  - rewrite stats_pressStrategy in Hs. auto.
Qed.

End Reachability.

(** C9, as stated, fails, in two ways: after a capture that found
    nothing, typing ["-5"] into the current speed stores -5, a negative
    integer, and typing a numeral of 310 nines stores +infinity, which is
    no integer at all. *)
Lemma manual_edit_stores_negative :
  let st := step afterFailedCapture (StatChange Kspeed Fcurrent (str "-5")) in
  let st' := step afterFailedCapture (StatChange Kspeed Fcurrent manyNines) in
  (reachable st /\
   exists s, stats st = Some s /\
             getStat s Kspeed Fcurrent = (-5)%float /\
             PrimFloat.ltb (getStat s Kspeed Fcurrent) 0 = true) /\
  (reachable st' /\
   exists s, stats st' = Some s /\
             getStat s Kspeed Fcurrent = PrimFloat.infinity /\
             integerNumber (getStat s Kspeed Fcurrent) = false) /\
  ~ (forall st0, reachable st0 ->
       forall s, stats st0 = Some s -> allNonnegIntegers s).
Proof.
  assert (R : forall v, reachable
                (step afterFailedCapture (StatChange Kspeed Fcurrent v))).
  { intros v. apply reachable_step. unfold afterFailedCapture.
    apply reachable_step. apply reachable_init. }
  split; [|split].
  - split; [apply R|]. eexists. repeat split.
  - split; [apply R|]. eexists. split; [reflexivity|].
    split; vm_compute; reflexivity.
  - intros H. specialize (H _ (R (str "-5")) _ eq_refl Kspeed Fcurrent).
    vm_compute in H. discriminate.
Qed.

(** C9, amended: every StatBlock made by a successful extraction has, for
    all five stats, current and max values that are integers between 0
    and 9999, and the placeholder has all values 0. A manual edit stores
    [parseInt(text) || 0] in the edited field and leaves the others as
    they were: a non-negative integer when the text is a decimal numeral
    of one to four digits, but possibly a negative one or an infinity. In
    every reachable state each value is the Number of a mathematical
    integer and is never NaN; non-negativity and finiteness are not
    invariants. Nothing relates current and max. *)
Theorem reachable_stats_are_integers :
  (forall text s, performOCR (Some text) = Some s ->
     allNonnegIntegers s /\
     forall k f, exists n : Z, 0 <= n <= 9999 /\ getStat s k f = Z2F n) /\
  (allNonnegIntegers zeroStats /\
   forall k f, getStat zeroStats k f = 0%float) /\
  (forall st, reachable st ->
     forall s, stats st = Some s ->
     forall k f,
       (exists z : Z, getStat s k f = Z2F z) /\
       PrimFloat.is_nan (getStat s k f) = false) /\
  (forall st s k f value, stats st = Some s ->
     exists s', stats (step st (StatChange k f value)) = Some s' /\
       getStat s' k f = or_else (parseInt value) 0%float /\
       forall k' f', (k', f') <> (k, f) -> getStat s' k' f' = getStat s k' f') /\
  (forall value : jsstring,
     forallb isDigit value = true ->
     (1 <= List.length value <= 4)%nat ->
     nonnegInteger (or_else (parseInt value) 0%float) = true).
Proof.
  split; [|split; [|split; [|split]]].
  - intros text s H. split.
    + intros k f. destruct (extractStats_values text s H k f) as (n & Hn & ->).
      apply nonnegInteger_small. lia.
    + apply (extractStats_values text s H).
  - split; intros k f; destruct k, f; reflexivity.
  - intros st Hr s Hs.
    apply (reachable_values
             (fun x => (exists z : Z, x = Z2F z) /\ PrimFloat.is_nan x = false))
      with (st := st); try assumption.
    + intros n Hn. split; [exists n; reflexivity|].
      apply nonnegInteger_not_nan, nonnegInteger_small. lia.
    + split; [exists 0; reflexivity|reflexivity].
    + intros v. split; [apply or_else_parseInt_integer|apply or_else_not_nan].
  - intros st s k f value Hs. unfold step, handleStatChange. simpl.
    rewrite Hs. simpl. eexists. split; [reflexivity|]. split.
    + apply getStat_set_same.
    + intros k' f' Hne. apply getStat_set_other, Hne.
  - intros value Hd Hl.
    rewrite parseInt_digits by (try assumption; intros ->; simpl in Hl; lia).
    assert (Hn : nonnegInteger (tokenValue value) = true).
    { unfold tokenValue. apply nonnegInteger_small.
      pose proof (decimal_bound value Hd ltac:(lia)). lia. }
    unfold or_else. destruct (truthy (tokenValue value)); [exact Hn|reflexivity].
Qed.

Lemma reachable_stats_are_integers_witness :
  (exists n : Z, 0 <= n <= 9999 /\
     getStat (statsOfNumbers (List.map tokenValue (firstn 10 (match_all tenNumbers))))
             Kspeed Fmax = Z2F n) /\
  (exists z : Z,
     getStat zeroStats Kguts Fcurrent = Z2F z) /\
  nonnegInteger (or_else (parseInt (str "950")) 0%float) = true.
Proof.
  destruct reachable_stats_are_integers as (H1 & _ & H3 & _ & H5).
  split; [|split].
  - refine (proj2 (H1 tenNumbers _ _) Kspeed Fmax).
    apply (extractStats_Some tenNumbers). vm_compute. lia.
  - refine (proj1 (H3 afterFailedCapture _ zeroStats _ Kguts Fcurrent)).
    + unfold afterFailedCapture. apply reachable_step, reachable_init.
    + reflexivity.
  - apply H5; [reflexivity|simpl; lia].
Defined.

(** ** The stored result *)

Section StoredResult.

(** The handlers that recompute leave the stored result equal to the
    evaluation of the stored StatBlock under the selected categories. *)
Lemma reevaluating_events_project st ev :
  reevaluates ev = true -> isProjection st -> isProjection (step st ev).
Proof.
  intros Hev Hst s Hs. destruct ev as [[|uri ocr]|o|k f v|d|g];
    try discriminate; unfold step in *.
  - simpl in Hev. unfold captureAndAnalyze in *.
    destruct (performOCR ocr) as [e|]; [|discriminate].
    simpl in *. congruence.
  - unfold handleStatChange in *. cbn [render r_stats] in *.
    destruct (stats st) as [s0|] eqn:E0; [simpl in *; congruence|].
    rewrite E0 in Hs. discriminate.
  - unfold pressDistance in *. cbn [render r_stats] in *.
    destruct (stats st) as [s0|] eqn:E0; simpl in *; congruence.
  - unfold pressStrategy in *. cbn [render r_stats] in *.
    destruct (stats st) as [s0|] eqn:E0; simpl in *; congruence.
Qed.

End StoredResult.

(** C10: a manual edit whose text [parseInt] turns into NaN stores 0 in
    the edited field and leaves the other fields as they were; it shows
    no alert, and the stored result is the evaluation of the new
    StatBlock under the selected categories. *)
Theorem unparseable_edit_stores_zero
    (st : AppState) (s : Stats) (k : StatKey) (f : Field) (value : jsstring) :
  stats st = Some s ->
  PrimFloat.is_nan (parseInt value) = true ->
  let st' := step st (StatChange k f value) in
  let newStats := set k (set_field f 0%float (get k s)) s in
  stats st' = Some newStats /\
  getStat newStats k f = 0%float /\
  (forall k' f', (k', f') <> (k, f) ->
                 getStat newStats k' f' = getStat s k' f') /\
  calculated st' =
    Some (calculateEvaluation newStats (distance st') (strategy st')) /\
  alerts st' = alerts st /\
  distance st' = distance st /\ strategy st' = strategy st.
Proof.
  intros Hs Hnan. unfold step, handleStatChange.
  cbn [render r_stats r_distance r_strategy]. rewrite Hs.
  rewrite (or_else_nan _ Hnan). simpl.
  repeat split.
  - apply getStat_set_same.
  - intros k' f' Hne. apply getStat_set_other, Hne.
Qed.

Lemma unparseable_edit_stores_zero_witness :
  stats (step afterCapture (StatChange Kpower Fcurrent (str "abc")))
  = Some (set Kpower (set_field Fcurrent 0%float
                        (get Kpower (statsOfNumbers
                           (List.map tokenValue (firstn 10 (match_all tenNumbers))))))
              (statsOfNumbers
                 (List.map tokenValue (firstn 10 (match_all tenNumbers))))).
Proof.
  refine (proj1 (unparseable_edit_stores_zero afterCapture _ Kpower Fcurrent
                   (str "abc") _ _)).
  - reflexivity.
  - reflexivity.
Defined.

(** C8 on the code: a capture on which recognition finds fewer than ten
    numbers stores the zeroed StatBlock and leaves the stored result as
    it was. After [afterCapture], whose result has total 5200, the result
    still has total 5200 although the StatBlock is all zeros, whose
    evaluation has total 0; from the initial state there is no stored
    result at all. The capture the overlay listener runs evaluates under
    the categories of the first render, middle and front-runner, whatever
    is selected. *)
Theorem failed_extraction_keeps_stale_result :
  let st2 := step afterCapture (TestCapture (Captured [] (Some twoNumbers))) in
  let st3 := step (step afterCapture (DistancePress long))
                  (OverlayCapture (Captured [] (Some tenNumbers))) in
  isProjection afterCapture /\
  (stats st2 = Some zeroStats /\
   calculated st2 = calculated afterCapture /\
   option_map total (calculated st2) = Some 5200%float /\
   total (calculateEvaluation zeroStats (distance st2) (strategy st2))
     = 0%float /\
   alerts st2 = [AlertReadFailed] /\
   ~ isProjection st2) /\
  (stats afterFailedCapture = Some zeroStats /\
   calculated afterFailedCapture = None /\
   ~ isProjection afterFailedCapture) /\
  (distance st3 = long /\
   option_map total (calculated st3) = Some 5200%float /\
   (forall s, stats st3 = Some s ->
      total (calculateEvaluation s (distance st3) (strategy st3))
        = 5360%float) /\
   ~ isProjection st3).
Proof.
  cbv zeta. split; [|split; [|split]].
  - intros s Hs. injection Hs as <-. reflexivity.
  - repeat split.
    intros H. specialize (H _ eq_refl).
    apply (f_equal (option_map total)) in H. vm_compute in H.
    apply (f_equal (fun o => match o with
                             | Some t => PrimFloat.eqb t 0
                             | None => false
                             end)) in H.
    vm_compute in H. discriminate.
  - repeat split. intros H. specialize (H _ eq_refl). discriminate.
  - repeat split.
    + intros s Hs. injection Hs as <-. reflexivity.
    + intros H. specialize (H _ eq_refl).
      apply (f_equal (fun o => match o with
                               | Some r => PrimFloat.eqb (total r) 5360
                               | None => false
                               end)) in H.
      vm_compute in H. discriminate.
Qed.

(** * Further properties of the code *)

(** ** Matches and separators *)

Section Separators.

Lemma spanDigits_app_sep s c u :
  isDigit c = false ->
  spanDigits (s ++ c :: u) =
  (fst (spanDigits s), snd (spanDigits s) ++ c :: u).
Proof.
  intros Hc. induction s as [|a s IH]; simpl.
  - rewrite Hc. reflexivity.
  - destruct (isDigit a); [|reflexivity].
    rewrite IH. destruct (spanDigits s) as [r rest]. reflexivity.
Qed.

Lemma digitRuns_app_sep s c u :
  isDigit c = false ->
  digitRuns (s ++ c :: u) = digitRuns s ++ digitRuns u.
Proof.
  intros Hc. remember (List.length s) as n eqn:En. revert s En.
  induction n as [n IH] using lt_wf_ind. intros [|a s] En.
  - cbn [app]. rewrite digitRuns_cons, Hc. reflexivity.
  - cbn [app]. rewrite !digitRuns_cons. destruct (isDigit a).
    + rewrite (spanDigits_app_sep s c u Hc). cbn [fst snd].
      pose proof (spanDigits_length s) as Hl.
      rewrite (IH (List.length (snd (spanDigits s))));
        [reflexivity | simpl in En; lia | reflexivity].
    + apply (IH (List.length s)); [simpl in En; lia | reflexivity].
Qed.

Lemma match_all_count s : (3 * List.length (match_all s) <= List.length s)%nat.
Proof.
  remember (List.length s) as n eqn:En. revert s En.
  induction n as [n IH] using lt_wf_ind. intros [|c s] En.
  - simp match_all. simpl. lia.
  - rewrite match_all_cons. destruct (match_here (c :: s)) as [t|] eqn:E.
    + apply match_here_length in E.
      assert (L : (List.length (skipn (List.length t) (c :: s)) < n)%nat)
        by (rewrite length_skipn; subst n; lia).
      pose proof (IH _ L _ eq_refl) as H.
      rewrite length_skipn in H. subst n.
      cbn [Datatypes.length] in *. lia.
    + pose proof (IH (List.length s) ltac:(simpl in En; lia) s eq_refl).
      simpl in En. lia.
Qed.

Lemma match_all_app_sep s c u :
  isDigit c = false ->
  match_all (s ++ c :: u) = match_all s ++ match_all u.
Proof.
  intros Hc. rewrite !match_all_digitRuns, (digitRuns_app_sep s c u Hc).
  apply flat_map_app.
Qed.

End Separators.

(** X1: a code unit that is not a digit separates the matches: the
    matches of a text around it are those before it followed by those
    after it. *)
Theorem matches_split_at_separator (s u : jsstring) (c : code_unit) :
  isDigit c = false ->
  match_all (s ++ c :: u) = match_all s ++ match_all u.
Proof. exact (match_all_app_sep s c u). Qed.

Lemma matches_split_at_separator_witness :
  match_all (str "1234" ++ 32%N :: str "56789")
  = match_all (str "1234") ++ match_all (str "56789").
Proof. apply matches_split_at_separator. reflexivity. Defined.

(** X2: every match takes at least three code units of the text, so a
    text shorter than thirty code units never yields a StatBlock. *)
Theorem short_text_never_extracts (text : jsstring) :
  (3 * List.length (match_all text) <= List.length text)%nat /\
  ((List.length text < 30)%nat -> performOCR (Some text) = None).
Proof.
  pose proof (match_all_count text) as H. split; [exact H|].
  intros Hl. simpl. apply extractStats_None. lia.
Qed.

Lemma short_text_never_extracts_witness :
  performOCR (Some (str "100 200 300 400 500 600 700")) = None.
Proof.
  apply (proj2 (short_text_never_extracts _)). vm_compute. lia.
Defined.

(** X3: once a text holds ten matches, whatever follows a separator
    after it does not change the extracted StatBlock. *)
Theorem text_after_tenth_match_ignored (s u : jsstring) (c : code_unit) :
  (10 <= List.length (match_all s))%nat -> isDigit c = false ->
  performOCR (Some (s ++ c :: u)) = performOCR (Some s).
Proof.
  intros Hl Hc. simpl.
  rewrite (extractStats_Some s Hl).
  pose proof (match_all_app_sep s c u Hc) as E.
  rewrite (extractStats_Some (s ++ c :: u)) by (rewrite E, length_app; lia).
  rewrite E, firstn_app.
  replace (10 - List.length (match_all s))%nat with 0%nat by lia.
  rewrite firstn_O, app_nil_r. reflexivity.
Qed.

Lemma text_after_tenth_match_ignored_witness :
  performOCR (Some (tenNumbers ++ 32%N :: str "9999 8888"))
  = performOCR (Some tenNumbers).
Proof.
  apply text_after_tenth_match_ignored; [vm_compute; lia | reflexivity].
Defined.

(** ** What [parseInt] reads *)

Section ParseIntPrefix.
Local Open Scope N_scope.

Lemma trim_start_white ws s :
  forallb isWhiteSpace ws = true -> trim_start (ws ++ s) = trim_start s.
Proof.
  induction ws as [|w ws IH]; simpl; [reflexivity|].
  intros H. apply andb_prop in H as [Hw Hws]. rewrite Hw. auto.
Qed.

Lemma trim_start_digit c s :
  isDigit c = true -> trim_start (c :: s) = c :: s.
Proof. intros H. simpl. rewrite (digit_not_white c H). reflexivity. Qed.

Lemma digit_value_not_decimal c :
  isDigit c = false -> digit_value 10 c = None.
Proof.
  unfold isDigit, digit_value. intros ->.
  destruct ((97 <=? c) && (c <=? 122)).
  - destruct (N.ltb_spec (c - 97 + 10) 10); [lia|reflexivity].
  - destruct ((65 <=? c) && (c <=? 90)); [|reflexivity].
    destruct (N.ltb_spec (c - 65 + 10) 10); [lia|reflexivity].
Qed.

Lemma leading_digits_prefix t rest :
  forallb isDigit t = true -> headNotDigit rest ->
  leading_digits 10 (t ++ rest) = List.map (fun c => c - 48) t.
Proof.
  intros Ht Hr. induction t as [|c t IH]; simpl.
  - destruct rest as [|x r]; [reflexivity|]. simpl in Hr. simpl.
    rewrite (digit_value_not_decimal x Hr). reflexivity.
  - simpl in Ht. apply andb_prop in Ht as [Hc Ht].
    rewrite (digit_value_decimal c Hc), (IH Ht). reflexivity.
Qed.

(** What [parseInt] computes once white space and sign are read, on a
    decimal numeral followed by something else. *)
Lemma parseInt_after_sign (neg : bool) t rest :
  forallb isDigit t = true -> t <> [] -> headNotDigit rest ->
  hexPrefixed (t ++ rest) = false ->
  (let '(R, s3) :=
     match t ++ rest with
     | c :: x :: r =>
         if (c =? 48) && ((x =? 120) || (x =? 88)) then (16, r)
         else (10, t ++ rest)
     | _ => (10, t ++ rest)
     end in
   match leading_digits R s3 with
   | [] => PrimFloat.nan
   | n :: l =>
       if mathInt R (n :: l) =? 0 then (if neg then (-0)%float else 0%float)
       else Z2F (if neg then (- Z.of_N (mathInt R (n :: l)))%Z
                 else Z.of_N (mathInt R (n :: l)))
   end) =
  if decimal t =? 0 then (if neg then (-0)%float else 0%float)
  else Z2F (if neg then (- Z.of_N (decimal t))%Z else Z.of_N (decimal t)).
Proof.
  intros Ht Hne Hr Hx.
  assert (E : match t ++ rest with
              | c :: x :: r =>
                  if (c =? 48) && ((x =? 120) || (x =? 88)) then (16, r)
                  else (10, t ++ rest)
              | _ => (10, t ++ rest)
              end = (10, t ++ rest)).
  { unfold hexPrefixed in Hx. destruct (t ++ rest) as [|c [|x r]];
      try reflexivity. rewrite Hx. reflexivity. }
  rewrite E. rewrite (leading_digits_prefix t rest Ht Hr).
  rewrite <- mathInt_decimal.
  destruct t as [|a t]; [congruence|]. reflexivity.
Qed.

End ParseIntPrefix.

(** X4: [parseInt] is lenient. Leading white space is skipped and
    whatever follows the digits is ignored: on white space, a non-empty
    decimal numeral and a rest that does not start with a digit (the
    numeral not being the [0] of a [0x] prefix), it returns the Number of
    the numeral; with a minus sign before the numeral it returns the
    negated Number, and -0 for a numeral of value zero. *)
Theorem parseInt_reads_decimal_prefix (ws t rest : jsstring) :
  forallb isWhiteSpace ws = true ->
  forallb isDigit t = true -> t <> [] ->
  headNotDigit rest -> hexPrefixed (t ++ rest) = false ->
  parseInt (ws ++ t ++ rest) = tokenValue t /\
  parseInt (ws ++ 45%N :: t ++ rest) =
    if (decimal t =? 0)%N then (-0)%float
    else Z2F (- Z.of_N (decimal t)).
Proof.
  intros Hws Ht Hne Hr Hx. split.
  - etransitivity;
      [|etransitivity;
          [apply (parseInt_after_sign false t rest); assumption|]];
      [|unfold tokenValue;
        destruct (N.eqb_spec (decimal t) 0) as [-> |_]; reflexivity].
    destruct t as [|a t']; [congruence|].
    assert (Ha : isDigit a = true)
      by (simpl in Ht; apply andb_prop in Ht; tauto).
    pose proof (isDigit_range a Ha) as Ra.
    unfold parseInt. rewrite (trim_start_white ws _ Hws).
    cbn [app]. rewrite (trim_start_digit a _ Ha). cbv beta iota zeta.
    replace (a =? 45)%N with false by (symmetry; apply N.eqb_neq; lia).
    replace (a =? 43)%N with false by (symmetry; apply N.eqb_neq; lia).
    reflexivity.
  - etransitivity;
      [|apply (parseInt_after_sign true t rest); assumption].
    unfold parseInt. rewrite (trim_start_white ws _ Hws).
    reflexivity.
Qed.

Lemma parseInt_reads_decimal_prefix_witness :
  parseInt (str "  " ++ str "12" ++ str "abc") = tokenValue (str "12") /\
  parseInt (str "  " ++ 45%N :: str "12" ++ str "abc") =
    if (decimal (str "12") =? 0)%N then (-0)%float
    else Z2F (- Z.of_N (decimal (str "12"))).
Proof.
  apply parseInt_reads_decimal_prefix; try reflexivity. discriminate.
Defined.

(** ** How the handlers compose *)

Section Composition.

Lemma calculateEvaluation_currents s1 s2 d g :
  (forall k, current (get k s1) = current (get k s2)) ->
  calculateEvaluation s1 d g = calculateEvaluation s2 d g.
Proof.
  intros H.
  pose proof (H Kspeed) as H1. pose proof (H Kstamina) as H2.
  pose proof (H Kpower) as H3. pose proof (H Kguts) as H4.
  pose proof (H Kwisdom) as H5. simpl in *.
  unfold calculateEvaluation. rewrite H1, H2, H3, H4, H5. reflexivity.
Qed.

Lemma current_set_max (s : Stats) k v k' :
  current (get k' (set k (set_field Fmax v (get k s)) s)) = current (get k' s).
Proof. destruct k, k'; reflexivity. Qed.

Lemma set_set_same (s : Stats) k f v w :
  set k (set_field f w (get k (set k (set_field f v (get k s)) s)))
      (set k (set_field f v (get k s)) s)
  = set k (set_field f w (get k s)) s.
Proof. destruct k, f; reflexivity. Qed.

Lemma set_set_other (s : Stats) k1 f1 v1 k2 f2 v2 :
  (k1, f1) <> (k2, f2) ->
  set k2 (set_field f2 v2 (get k2 (set k1 (set_field f1 v1 (get k1 s)) s)))
      (set k1 (set_field f1 v1 (get k1 s)) s)
  = set k1 (set_field f1 v1 (get k1 (set k2 (set_field f2 v2 (get k2 s)) s)))
        (set k2 (set_field f2 v2 (get k2 s)) s).
Proof.
  destruct k1, f1, k2, f2; intros H; try reflexivity; congruence.
Qed.

Lemma alerts_step st ev : alerts (step st ev) = alerts st ++ alertOf ev.
Proof.
  destruct ev as [[|uri ocr]|[|uri ocr]|k f v|d|g]; simpl;
    try reflexivity.
  - destruct (performOCR ocr); simpl; [rewrite app_nil_r|]; reflexivity.
  - destruct (performOCR ocr); simpl; [rewrite app_nil_r|]; reflexivity.
  - unfold handleStatChange. simpl. destruct (stats st); simpl;
      rewrite app_nil_r; reflexivity.
  - unfold pressDistance. simpl. destruct (stats st); simpl;
      rewrite app_nil_r; reflexivity.
  - unfold pressStrategy. simpl. destruct (stats st); simpl;
      rewrite app_nil_r; reflexivity.
Qed.

Lemma loading_step st ev :
  loading st = false -> loading (step st ev) = false.
Proof.
  intros H. destruct ev as [[|uri ocr]|[|uri ocr]|k f v|d|g]; simpl;
    try reflexivity.
  - unfold handleStatChange. simpl. destruct (stats st); assumption.
  - unfold pressDistance. simpl. destruct (stats st); assumption.
  - unfold pressStrategy. simpl. destruct (stats st); assumption.
Qed.

End Composition.

(** X5: the max values take no part in the evaluation: StatBlocks with
    the same current values evaluate alike, and editing a max value stores
    the very result of the StatBlock as it was before the edit. *)
Theorem max_values_do_not_count :
  (forall s1 s2 d g,
      (forall k, current (get k s1) = current (get k s2)) ->
      calculateEvaluation s1 d g = calculateEvaluation s2 d g) /\
  (forall st s k value,
      stats st = Some s ->
      calculated (step st (StatChange k Fmax value))
      = Some (calculateEvaluation s (distance st) (strategy st))).
Proof.
  split; [exact calculateEvaluation_currents|].
  intros st s k value Hs. unfold step, handleStatChange.
  cbn [render r_stats r_distance r_strategy]. rewrite Hs. simpl. f_equal.
  apply calculateEvaluation_currents. intros k'. apply current_set_max.
Qed.

Lemma max_values_do_not_count_witness :
  calculateEvaluation allThousand long oikomi
  = calculateEvaluation
      (statsOfNumbers (List.map tokenValue (firstn 10 (match_all tenNumbers))))
      long oikomi /\
  calculated (step afterCapture (StatChange Kguts Fmax (str "1300")))
  = Some (calculateEvaluation
            (statsOfNumbers (List.map tokenValue (firstn 10 (match_all tenNumbers))))
            (distance afterCapture) (strategy afterCapture)).
Proof.
  destruct max_values_do_not_count as [H1 H2]. split.
  - apply H1. intros k. destruct k; reflexivity.
  - apply H2. reflexivity.
Defined.

(** X6: a manual edit and a distance or strategy selection leave the
    stored result equal to the evaluation of the stored StatBlock under
    the selected categories, whatever the stored result was before: each
    of the three synchronous handlers repairs a stale result. *)
Theorem recomputing_events_repair (st : AppState) (ev : Event) :
  isSynchronous ev = true -> isProjection (step st ev).
Proof.
  intros Hev s Hs. destruct ev as [o|o|k f v|d|g];
    try discriminate; unfold step in *.
  - unfold handleStatChange in *. cbn [render r_stats] in *.
    destruct (stats st) as [s0|] eqn:E0; [simpl in *; congruence|].
    rewrite E0 in Hs. discriminate.
  - unfold pressDistance in *. cbn [render r_stats] in *.
    destruct (stats st) as [s0|] eqn:E0; simpl in *; congruence.
  - unfold pressStrategy in *. cbn [render r_stats] in *.
    destruct (stats st) as [s0|] eqn:E0; simpl in *; congruence.
Qed.

Lemma recomputing_events_repair_witness :
  isProjection
    (step (step afterCapture (TestCapture (Captured [] (Some twoNumbers))))
          (StrategyPress senko)).
Proof. apply recomputing_events_repair. reflexivity. Defined.

(** X7: the last edit of a field wins: editing a field twice leaves the
    state that the second edit alone gives, stored result included; so
    repeating an edit changes nothing. *)
Theorem last_edit_wins (st : AppState) k f (v w : jsstring) :
  step (step st (StatChange k f v)) (StatChange k f w)
  = step st (StatChange k f w).
Proof.
  unfold step, handleStatChange. cbn [render r_stats r_distance r_strategy].
  destruct (stats st) as [s|] eqn:E; simpl; [|rewrite E; reflexivity].
  rewrite set_set_same. reflexivity.
Qed.

(** X8: edits of two different fields commute: either order gives the
    same state, stored result included. *)
Theorem edits_of_different_fields_commute
    (st : AppState) k1 f1 (v1 : jsstring) k2 f2 (v2 : jsstring) :
  (k1, f1) <> (k2, f2) ->
  step (step st (StatChange k1 f1 v1)) (StatChange k2 f2 v2)
  = step (step st (StatChange k2 f2 v2)) (StatChange k1 f1 v1).
Proof.
  intros Hne. unfold step, handleStatChange.
  cbn [render r_stats r_distance r_strategy].
  destruct (stats st) as [s|] eqn:E; simpl; [|rewrite E; reflexivity].
  rewrite (set_set_other s k1 f1 _ k2 f2 _ Hne). reflexivity.
Qed.

Lemma edits_of_different_fields_commute_witness :
  step (step afterCapture (StatChange Kspeed Fcurrent (str "900")))
       (StatChange Kspeed Fmax (str "1200"))
  = step (step afterCapture (StatChange Kspeed Fmax (str "1200")))
         (StatChange Kspeed Fcurrent (str "900")).
Proof. apply edits_of_different_fields_commute. discriminate. Defined.

(** X9: selecting a distance and selecting a strategy commute, and of
    two selections of the same kind the later one alone counts. *)
Theorem selections_commute_and_override (st : AppState) :
  (forall d g,
      step (step st (DistancePress d)) (StrategyPress g)
      = step (step st (StrategyPress g)) (DistancePress d)) /\
  (forall d1 d2,
      step (step st (DistancePress d1)) (DistancePress d2)
      = step st (DistancePress d2)) /\
  (forall g1 g2,
      step (step st (StrategyPress g1)) (StrategyPress g2)
      = step st (StrategyPress g2)).
Proof.
  unfold step, pressDistance, pressStrategy.
  cbn [render r_stats r_distance r_strategy].
  repeat split; intros; destruct (stats st) as [s|] eqn:E; simpl;
    rewrite ?E; reflexivity.
Qed.

(** X10: nothing resets the StatBlock or the stored result to null: once
    present each stays present after every event; and in every reachable
    state a stored result comes with a StatBlock. *)
Theorem stats_and_result_persist :
  (forall st ev, stats st <> None -> stats (step st ev) <> None) /\
  (forall st ev, calculated st <> None -> calculated (step st ev) <> None) /\
  (forall st, reachable st -> calculated st <> None -> stats st <> None).
Proof.
  assert (A : forall st ev, stats st <> None -> stats (step st ev) <> None).
  { intros st ev H. destruct ev as [o|o|k f v|d|g]; unfold step.
    - rewrite stats_captureAndAnalyze. destruct o as [|uri ocr]; [exact H|].
      destruct (performOCR ocr); discriminate.
    - rewrite stats_captureAndAnalyze. destruct o as [|uri ocr]; [exact H|].
      destruct (performOCR ocr); discriminate.
    - rewrite stats_handleStatChange. cbn [render r_stats].
      destruct (stats st); [discriminate|exact H].
    - rewrite stats_pressDistance. exact H.
    - rewrite stats_pressStrategy. exact H. }
  split; [exact A|]. split.
  - intros st ev H.
    destruct ev as [[|uri ocr]|[|uri ocr]|k f v|d|g]; simpl;
      try exact H.
    + destruct (performOCR ocr); simpl; [discriminate|exact H].
    + destruct (performOCR ocr); simpl; [discriminate|exact H].
    + unfold handleStatChange. simpl. destruct (stats st); simpl;
        [discriminate|exact H].
    + unfold pressDistance. simpl. destruct (stats st); simpl;
        [discriminate|exact H].
    + unfold pressStrategy. simpl. destruct (stats st); simpl;
        [discriminate|exact H].
  - intros st Hr. induction Hr as [|st ev Hr IH]; [intros H; elim H; reflexivity|].
    intros Hc. destruct (stats st) as [s|] eqn:E.
    + apply A. rewrite E. discriminate.
    + assert (Hn : calculated st = None).
      { destruct (calculated st); [|reflexivity].
        elim IH; [discriminate|reflexivity]. }
      destruct ev as [[|uri ocr]|[|uri ocr]|k f v|d|g]; simpl in *;
        try congruence.
      * destruct (performOCR ocr); discriminate.
      * destruct (performOCR ocr); discriminate.
      * unfold handleStatChange in *. simpl in *. rewrite E in *. congruence.
      * unfold pressDistance in *. simpl in *. rewrite E in *. simpl in *.
        congruence.
      * unfold pressStrategy in *. simpl in *. rewrite E in *. simpl in *.
        congruence.
Qed.

Lemma stats_and_result_persist_witness :
  stats (step afterCapture (TestCapture CaptureThrows)) <> None /\
  calculated (step afterCapture (TestCapture (Captured [] None))) <> None /\
  stats afterCapture <> None.
Proof.
  destruct stats_and_result_persist as (H1 & H2 & H3).
  split; [apply H1; discriminate|]. split; [apply H2; discriminate|].
  apply H3; [apply reachable_step, reachable_init | discriminate].
Defined.

(** ** Invariants of the reachable states *)

Section Invariants.

Lemma alerts_run evs : forall st,
  alerts (run st evs) = alerts st ++ flat_map alertOf evs.
Proof.
  induction evs as [|ev evs IH]; intros st.
  - simpl. rewrite app_nil_r. reflexivity.
  - change (run st (ev :: evs)) with (run (step st ev) evs).
    rewrite IH, alerts_step, <- app_assoc. reflexivity.
Qed.

End Invariants.

(** X11: no value of a reachable StatBlock is NaN: extraction reads
    integers, the placeholder holds zeros, and an edit stores
    [parseInt(text) || 0], which replaces NaN by 0. *)
Theorem stored_values_are_never_nan (st : AppState) (s : Stats) :
  reachable st -> stats st = Some s ->
  forall k f, PrimFloat.is_nan (getStat s k f) = false.
Proof.
  intros Hr Hs.
  apply (reachable_values (fun x => PrimFloat.is_nan x = false)) with (st := st);
    try assumption.
  - intros n Hn. apply nonnegInteger_not_nan, nonnegInteger_small. lia.
  - reflexivity.
  - intros v. apply or_else_not_nan.
Qed.

Lemma stored_values_are_never_nan_witness :
  PrimFloat.is_nan
    (getStat (set Kpower (set_field Fcurrent
                            (or_else (parseInt (str "abc")) 0%float)
                            (get Kpower zeroStats)) zeroStats)
             Kpower Fcurrent) = false.
Proof.
  refine (stored_values_are_never_nan
            (step afterFailedCapture (StatChange Kpower Fcurrent (str "abc")))
            _ _ eq_refl Kpower Fcurrent).
  apply reachable_step. unfold afterFailedCapture.
  apply reachable_step, reachable_init.
Defined.

(** X12: the alerts shown are exactly one per capture that fails, in
    order: the capture alert when [captureScreen] throws, the read alert
    when recognition gives no StatBlock; a successful capture, an edit
    and a selection show none. *)
Theorem one_alert_per_failed_capture (evs : list Event) :
  alerts (run initialState evs) = flat_map alertOf evs.
Proof. rewrite alerts_run. reflexivity. Qed.

(** ** Captures with their awaits *)

Section AsyncCaptures.

(** A capture during which nothing else happens is the capture event of
    [step]. *)
Lemma uninterrupted_capture_is_step st uri ocr :
  loading st = false ->
  asyncStep (asyncStep (asyncStep (mkAsync st []) PressTestCapture)
                       (CaptureSettles 0 (Some uri)))
            (RecognitionSettles 0 ocr)
  = mkAsync (step st (TestCapture (Captured uri ocr))) [] /\
  asyncStep (asyncStep (mkAsync st []) PressTestCapture)
            (CaptureSettles 0 None)
  = mkAsync (step st (TestCapture CaptureThrows)) [].
Proof.
  intros L. simpl. rewrite L. simpl. split; [|reflexivity].
  destruct (performOCR ocr); reflexivity.
Qed.

(** A selection between the two awaits is not seen by the capture: the
    result it stores is evaluated under the categories of the render that
    started it. *)
Lemma interleaved_selection_is_not_seen :
  let st1 := asyncStep initialAsync PressTestCapture in
  let st2 := asyncStep st1 (CaptureSettles 0 (Some [])) in
  let st3 := asyncStep st2 (SelectDistance long) in
  let st4 := asyncStep st3 (RecognitionSettles 0 (Some tenNumbers)) in
  distance (component st4) = long /\
  option_map total (calculated (component st4)) = Some 5200%float /\
  ~ isProjection (component st4).
Proof.
  cbv zeta. split; [reflexivity|]. split; [reflexivity|].
  intros H. specialize (H _ eq_refl).
  apply (f_equal (fun o => match o with
                           | Some r => PrimFloat.eqb (total r) 5360
                           | None => false
                           end)) in H.
  vm_compute in H. discriminate.
Qed.

End AsyncCaptures.

(** X13: with the awaits of [captureAndAnalyze] taken apart, so that
    edits, selections and further captures may come in between: whenever
    no capture is in flight [loading] is false. Every way a capture ends
    (a StatBlock read, nothing read, the capture thrown) passes through
    [setLoading(false)], so the test button is never left disabled; while
    a capture is in flight [loading] can be true. *)
Theorem idle_component_is_not_loading (st : AsyncState) :
  asyncReachable st ->
  inflight st = [] -> loading (component st) = false.
Proof.
  induction 1 as [|st ev Hr IH]; [reflexivity|].
  destruct ev as [| |i result|i ocr|k f v|d|g]; simpl.
  - destruct (loading (component st)) eqn:L; [rewrite L; exact IH|].
    simpl. intros H. apply app_eq_nil in H as [_ H]. discriminate.
  - intros H. apply app_eq_nil in H as [_ H]. discriminate.
  - destruct (nth_error (inflight st) i) as [[r [|]]|] eqn:E; try exact IH.
    destruct result as [uri|]; simpl; [|reflexivity].
    unfold replaceAt. intros H. apply app_eq_nil in H as [_ H]. discriminate.
  - destruct (nth_error (inflight st) i) as [[r [|]]|] eqn:E; try exact IH.
    simpl. reflexivity.
  - intros H. apply (loading_step (component st) (StatChange k f v)), IH, H.
  - intros H. apply (loading_step (component st) (DistancePress d)), IH, H.
  - intros H. apply (loading_step (component st) (StrategyPress g)), IH, H.
Qed.

Lemma idle_component_is_not_loading_witness :
  let st1 := asyncStep initialAsync PressTestCapture in
  let st2 := asyncStep st1 (CaptureSettles 0 (Some [])) in
  let st3 := asyncStep st2 (SelectDistance long) in
  let st4 := asyncStep st3 (RecognitionSettles 0 (Some tenNumbers)) in
  loading (component st1) = true /\ loading (component st3) = true /\
  loading (component st4) = false.
Proof.
  cbv zeta. split; [reflexivity|]. split; [reflexivity|].
  apply idle_component_is_not_loading; [|reflexivity].
  repeat apply async_step. apply async_init.
Defined.

(** X14: the placeholder evaluates to nothing: under every distance and
    strategy the zeroed StatBlock has all scores 0, total 0 and rating C,
    which is what the first selection after a failed recognition
    stores. *)
Theorem placeholder_evaluates_to_zero :
  (forall d g,
      calculateEvaluation zeroStats d g
      = mkResult (mkPerStat 0 0 0 0 0)%float 0%float "C") /\
  (forall st uri ocr d,
      performOCR ocr = None ->
      calculated (step (step st (TestCapture (Captured uri ocr)))
                       (DistancePress d))
      = Some (mkResult (mkPerStat 0 0 0 0 0)%float 0%float "C")).
Proof.
  assert (A : forall d g,
             calculateEvaluation zeroStats d g
             = mkResult (mkPerStat 0 0 0 0 0)%float 0%float "C")
    by (intros d g; destruct d, g; reflexivity).
  split; [exact A|].
  intros st uri ocr d H.
  remember (step st (TestCapture (Captured uri ocr))) as st1 eqn:E1.
  assert (Hs : stats st1 = Some zeroStats)
    by (subst st1; unfold step; rewrite stats_captureAndAnalyze, H;
        reflexivity).
  unfold step, pressDistance. cbn [render r_stats r_strategy].
  rewrite Hs. simpl. rewrite A. reflexivity.
Qed.

Lemma placeholder_evaluates_to_zero_witness :
  calculated (step (step afterCapture (TestCapture (Captured [] None)))
                   (DistancePress long))
  = Some (mkResult (mkPerStat 0 0 0 0 0)%float 0%float "C").
Proof.
  apply (proj2 placeholder_evaluates_to_zero). reflexivity.
Defined.

(** ** The overlay controls *)

Section OverlayControls.

Lemma checkAndRequestPermissions_enabled os o st :
  overlayEnabled (checkAndRequestPermissions os o st) = overlayEnabled st.
Proof.
  destruct os; [|reflexivity]. destruct o as [| |[|]]; reflexivity.
Qed.

Lemma checkAndRequestPermissions_other o st :
  checkAndRequestPermissions otherPlatform o st = st.
Proof. reflexivity. Qed.

Lemma overlay_enabled_has_permission os st :
  overlayReachable os st ->
  overlayEnabled st = true -> hasPermission st = true.
Proof.
  induction 1 as [o|st ev Hr IH].
  - rewrite checkAndRequestPermissions_enabled. discriminate.
  - destruct ev as [o startThrows stopThrows|o|]; simpl.
    + destruct (overlayEnabled st) eqn:En.
      * unfold stopOverlay. destruct stopThrows; simpl; auto; discriminate.
      * unfold startOverlay. destruct (hasPermission st) eqn:Hp; simpl.
        -- destruct startThrows; simpl; auto.
        -- rewrite checkAndRequestPermissions_enabled. simpl. congruence.
    + destruct (hasPermission st) eqn:Hp; [auto|].
      rewrite checkAndRequestPermissions_enabled. intros En.
      discriminate (IH En).
    + destruct (existsb _ (shown st)); simpl; auto.
Qed.

End OverlayControls.

(** X15: the overlay is enabled only with permission: in every state
    the controls can reach, [overlayEnabled] implies [hasPermission]. *)
Theorem overlay_enabled_only_with_permission
    (os : Platform) (st : OverlayState) :
  overlayReachable os st ->
  overlayEnabled st = true -> hasPermission st = true.
Proof. exact (overlay_enabled_has_permission os st). Qed.

Lemma overlay_enabled_only_with_permission_witness :
  hasPermission
    (overlayStep android
       (checkAndRequestPermissions android (CheckResolves true) initialOverlay)
       (PressMain StorageThrows false false)) = true.
Proof.
  apply (overlay_enabled_only_with_permission android).
  - apply overlay_step, overlay_mounted.
  - reflexivity.
Defined.

(** X16: a permission once seen is kept and never checked again: with
    [hasPermission] set, no event clears it and no event calls the
    native permission check, whatever the device would answer. *)
Theorem permission_is_never_rechecked
    (os : Platform) (st : OverlayState) (ev : OverlayEvent) :
  hasPermission st = true ->
  hasPermission (overlayStep os st ev) = true /\
  exists calls,
    native (overlayStep os st ev) = native st ++ calls /\
    ~ In CallCheckOverlay calls.
Proof.
  intros Hp. destruct ev as [o startThrows stopThrows|o|]; simpl.
  - destruct (overlayEnabled st).
    + unfold stopOverlay. destruct stopThrows; simpl; (split; [exact Hp|]);
        exists [CallStopService]; (split; [reflexivity|]);
        simpl; intros [H|[]]; discriminate.
    + unfold startOverlay. rewrite Hp. simpl.
      destruct startThrows; simpl; (split; [exact Hp|]);
        exists [CallStartService]; (split; [reflexivity|]);
        simpl; intros [H|[]]; discriminate.
  - rewrite Hp. split; [exact Hp|]. exists []. rewrite app_nil_r.
    split; [reflexivity|]. intros [].
  - destruct (existsb _ (shown st)); simpl; (split; [exact Hp|]).
    + exists [CallRequestOverlay]. split; [reflexivity|].
      simpl. intros [H|[]]. discriminate.
    + exists []. rewrite app_nil_r. split; [reflexivity|]. intros [].
Qed.

Lemma permission_is_never_rechecked_witness :
  hasPermission
    (overlayStep android
       (checkAndRequestPermissions android (CheckResolves true) initialOverlay)
       (PressPermission (CheckResolves false))) = true.
Proof.
  apply (permission_is_never_rechecked android). reflexivity.
Defined.

(** X17: on a platform other than Android the controls do nothing: the
    only reachable state is the initial one, so the overlay is never
    enabled, no permission is ever seen, no alert is shown and no native
    call is made. *)
Theorem controls_do_nothing_off_android (st : OverlayState) :
  overlayReachable otherPlatform st -> st = initialOverlay.
Proof.
  induction 1 as [o|st ev Hr IH]; [reflexivity|]. subst st.
  destruct ev as [o startThrows stopThrows|o|]; reflexivity.
Qed.

Lemma controls_do_nothing_off_android_witness :
  overlayStep otherPlatform
    (checkAndRequestPermissions otherPlatform (CheckResolves true) initialOverlay)
    (PressMain (CheckResolves true) false false) = initialOverlay.
Proof.
  apply controls_do_nothing_off_android.
  apply overlay_step, overlay_mounted.
Defined.

(** X18: pressing the main button without permission only runs the
    permission check: the service is not started and the overlay stays
    disabled in that press, even when the check answers that permission
    is granted; a second press then starts it. *)
Theorem start_needs_a_second_press
    (os : Platform) (st : OverlayState) (o : CheckOutcome) (t p : bool) :
  overlayEnabled st = false -> hasPermission st = false ->
  let st1 := overlayStep os st (PressMain o t p) in
  overlayEnabled st1 = false /\
  (exists calls,
      native st1 = native st ++ calls /\ ~ In CallStartService calls) /\
  (os = android -> o = CheckResolves true ->
   forall o' p',
     let st2 := overlayStep os st1 (PressMain o' false p') in
     overlayEnabled st2 = true /\
     native st2 = native st1 ++ [CallStartService] /\
     shown st2 = shown st1 ++ [AlertStarted]).
Proof.
  intros En Hp. simpl. rewrite En. unfold startOverlay. rewrite Hp. simpl.
  split; [rewrite checkAndRequestPermissions_enabled; exact En|]. split.
  - destruct os; [|exists []; rewrite app_nil_r; split; [reflexivity|intros []]].
    destruct o as [| |[|]]; simpl.
    + exists [CallRequestStorage]. split; [reflexivity|].
      simpl. intuition discriminate.
    + exists [CallRequestStorage; CallCheckOverlay].
      split; [rewrite <- app_assoc; reflexivity|]. simpl. intuition discriminate.
    + exists [CallRequestStorage; CallCheckOverlay].
      split; [rewrite <- app_assoc; reflexivity|]. simpl. intuition discriminate.
    + exists [CallRequestStorage; CallCheckOverlay].
      split; [rewrite <- app_assoc; reflexivity|]. simpl. intuition discriminate.
  - intros -> -> o' p'. simpl. rewrite En. simpl. repeat split.
Qed.

Lemma start_needs_a_second_press_witness :
  overlayEnabled
    (overlayStep android initialOverlay
       (PressMain (CheckResolves true) false false)) = false.
Proof.
  apply (start_needs_a_second_press android initialOverlay); reflexivity.
Defined.

(** X19: a failing native call leaves the overlay switch as it was: when
    stopping throws the overlay stays enabled and nothing is shown; when
    starting throws the overlay stays disabled and the failure alert is
    shown. *)
Theorem failed_start_or_stop_keeps_switch
    (os : Platform) (st : OverlayState) (o : CheckOutcome) :
  (overlayEnabled st = true ->
   let st' := overlayStep os st (PressMain o false true) in
   overlayEnabled st' = true /\ shown st' = shown st /\
   native st' = native st ++ [CallStopService]) /\
  (overlayEnabled st = false -> hasPermission st = true ->
   let st' := overlayStep os st (PressMain o true false) in
   overlayEnabled st' = false /\
   shown st' = shown st ++ [AlertStartFailed] /\
   native st' = native st ++ [CallStartService]).
Proof.
  split.
  - intros En. simpl. rewrite En. simpl. repeat split. exact En.
  - intros En Hp. simpl. rewrite En. unfold startOverlay. rewrite Hp. simpl.
    repeat split. exact En.
Qed.

Lemma failed_start_or_stop_keeps_switch_witness :
  overlayEnabled
    (overlayStep android
       (mkOverlay true true [AlertStarted] [CallStartService])
       (PressMain StorageThrows false true)) = true /\
  overlayEnabled
    (overlayStep android
       (mkOverlay false true [] [])
       (PressMain StorageThrows true false)) = false.
Proof.
  split.
  - apply (proj1 (failed_start_or_stop_keeps_switch android _ StorageThrows)).
    reflexivity.
  - apply (proj2 (failed_start_or_stop_keeps_switch android _ StorageThrows));
      reflexivity.
Defined.

(** ** The native module and the service *)

Section Native.

Lemma fsub_self (x : float32) : f2i (fsub x x) = 0.
Proof.
  destruct x as [s| s | |s m e]; unfold fsub, SFsub.
  - destruct s; reflexivity.
  - destruct s; reflexivity.
  - reflexivity.
  - rewrite Z.sub_diag. reflexivity.
Qed.

Lemma wrap32_int32 z : int32 z -> wrap32 (z + 0) = z.
Proof.
  unfold int32, wrap32. intros H. rewrite Z.add_0_r.
  rewrite Z.mod_small by lia. lia.
Qed.

End Native.

(** X20: the permission alert and the settings screen agree: after the
    first render on an Android device the permission alert is shown
    exactly when [requestOverlayPermission], which its button calls,
    does open the settings; below API 23 permission is always seen and
    the settings are never opened. *)
Theorem alert_shown_iff_settings_open (dev : Device) :
  (shown (mountedOn dev) = [AlertNeedPermission]
   <-> requestOverlayPermission dev = true) /\
  (hasPermission (mountedOn dev) = negb (requestOverlayPermission dev)) /\
  (SDK_INT dev < VERSION_CODES_M ->
   hasPermission (mountedOn dev) = true /\ shown (mountedOn dev) = [] /\
   requestOverlayPermission dev = false).
Proof.
  unfold mountedOn, checkOverlayPermission, requestOverlayPermission.
  destruct (Z.leb_spec VERSION_CODES_M (SDK_INT dev)) as [H|H].
  - destruct (canDrawOverlays dev); simpl; repeat split;
      try discriminate; try reflexivity; lia.
  - simpl. repeat split; discriminate.
Qed.

Lemma alert_shown_iff_settings_open_witness :
  hasPermission (mountedOn (mkDevice 21 false)) = true.
Proof.
  apply (proj2 (proj2 (alert_shown_iff_settings_open (mkDevice 21 false)))).
  unfold VERSION_CODES_M. simpl. lia.
Defined.

(** X21: the service is started in the way its window needs. From API
    level 26 on the module starts it with [startForegroundService] and
    [onCreate] adds the view with the type [TYPE_APPLICATION_OVERLAY];
    below 26 the module uses [startService] and the window has the type
    [TYPE_PHONE]. So the start is a foreground start exactly when the
    window is an application overlay. *)
Theorem foreground_start_matches_window_type (dev : Device) (s : Service) :
  (26 <= SDK_INT dev ->
   startOverlayService dev = StartForegroundService /\
   wm (onCreate (SDK_INT dev) s)
   = wm s ++ [AddView TYPE_APPLICATION_OVERLAY 20 100]) /\
  (SDK_INT dev < 26 ->
   startOverlayService dev = StartService /\
   wm (onCreate (SDK_INT dev) s) = wm s ++ [AddView TYPE_PHONE 20 100]) /\
  (startOverlayService dev = StartForegroundService
   <-> wm (onCreate (SDK_INT dev) s)
       = wm s ++ [AddView TYPE_APPLICATION_OVERLAY 20 100]).
Proof.
  unfold startOverlayService, onCreate, VERSION_CODES_O. simpl.
  destruct (Z.leb_spec 26 (SDK_INT dev)) as [H|H].
  - split; [intros _; split; reflexivity|].
    split; [intros H'; lia|]. split; reflexivity.
  - split; [intros H'; lia|].
    split; [intros _; split; reflexivity|].
    split; intros H'; [discriminate|].
    apply app_inv_head in H'. discriminate.
Qed.

Lemma foreground_start_matches_window_type_witness :
  (startOverlayService (mkDevice 30 true) = StartForegroundService /\
   wm (onCreate 30 newService) = [AddView TYPE_APPLICATION_OVERLAY 20 100]) /\
  (startOverlayService (mkDevice 25 true) = StartService /\
   wm (onCreate 25 newService) = [AddView TYPE_PHONE 20 100]).
Proof.
  split.
  - apply (proj1 (foreground_start_matches_window_type
                    (mkDevice 30 true) newService)). simpl. lia.
  - apply (proj1 (proj2 (foreground_start_matches_window_type
                           (mkDevice 25 true) newService))). simpl. lia.
Defined.

(** X22: a drag is measured from where the finger went down. A touch
    down moves nothing; dragging anywhere and coming back to the point of
    the touch down puts the button exactly where it was, whatever the
    coordinates; a move leaves the position that it would give right
    after the touch down, so moves do not add up; and an action other
    than down and move is not consumed and changes nothing. *)
Theorem drag_is_relative_to_touch_down (s : Service) (x0 y0 : float32) :
  int32 (params_x s) -> int32 (params_y s) ->
  let down := fst (onTouch ACTION_DOWN x0 y0 s) in
  (params_x down = params_x s /\ params_y down = params_y s /\
   wm down = wm s) /\
  (forall xa ya,
      let moved := fst (onTouch ACTION_MOVE xa ya down) in
      let back := fst (onTouch ACTION_MOVE x0 y0 moved) in
      params_x back = params_x s /\ params_y back = params_y s) /\
  (forall xa ya x y,
      let moved := fst (onTouch ACTION_MOVE xa ya down) in
      params_x (fst (onTouch ACTION_MOVE x y moved))
      = params_x (fst (onTouch ACTION_MOVE x y down)) /\
      params_y (fst (onTouch ACTION_MOVE x y moved))
      = params_y (fst (onTouch ACTION_MOVE x y down))) /\
  (forall action x y,
      action <> ACTION_DOWN -> action <> ACTION_MOVE ->
      onTouch action x y s = (s, false)).
Proof.
  intros Hx Hy. cbv zeta. repeat split.
  - simpl. rewrite fsub_self. apply wrap32_int32, Hx.
  - simpl. rewrite fsub_self. apply wrap32_int32, Hy.
  - intros action x y Hd Hm. unfold onTouch.
    destruct (Z.eqb_spec action ACTION_DOWN); [contradiction|].
    destruct (Z.eqb_spec action ACTION_MOVE); [contradiction|].
    reflexivity.
Qed.

Lemma drag_is_relative_to_touch_down_witness :
  let s := onCreate 30 newService in
  let x0 := S754_finite false 12582912 (-17) in
  let y0 := S754_finite false 10485760 (-15) in
  let down := fst (onTouch ACTION_DOWN x0 y0 s) in
  let moved := fst (onTouch ACTION_MOVE (S754_zero false) y0 down) in
  params_x (fst (onTouch ACTION_MOVE x0 y0 moved)) = 20 /\
  params_x moved = 116.
Proof.
  cbv zeta. split.
  - refine (proj1 (proj1 (proj2
              (drag_is_relative_to_touch_down (onCreate 30 newService)
                 (S754_finite false 12582912 (-17))
                 (S754_finite false 10485760 (-15)) _ _))
              (S754_zero false) (S754_finite false 10485760 (-15))));
      unfold int32; simpl; lia.
  - reflexivity.
Defined.

(** X23: [onDestroy] removes the view once: a second [onDestroy], or
    one without [onCreate], calls nothing on the window manager, and
    after create and destroy the view has been added once and removed
    once. *)
Theorem view_is_removed_once (sdk : Z) (s : Service) :
  onDestroy (onDestroy s) = onDestroy s /\
  overlayView (onDestroy s) = false /\
  (overlayView s = false -> onDestroy s = s) /\
  (exists type,
      wm (onDestroy (onDestroy (onCreate sdk newService)))
      = [AddView type 20 100; RemoveView]).
Proof.
  unfold onDestroy. repeat split.
  - destruct (overlayView s) eqn:E; simpl; [reflexivity|]. rewrite E. reflexivity.
  - destruct (overlayView s) eqn:E; simpl; [reflexivity|exact E].
  - intros ->. reflexivity.
  - simpl. eexists. reflexivity.
Qed.

Lemma view_is_removed_once_witness :
  onDestroy newService = newService.
Proof.
  apply (proj1 (proj2 (proj2 (view_is_removed_once 30 newService)))).
  reflexivity.
Defined.
